(** * Contact API gateway: a shallow embedding of [server.js]

    The repository holds one Express application in two revisions:
    [src/server.js] (module [Server] below) and an unnamed sibling revision
    [src/unnamed/part_000] (module [Part000]).  Both wire the same pipeline

      origin guard -> global limiter -> route -> contact limiter
                   -> validateContactRequest -> mail handler

    The embedding follows the JavaScript text: values are JSON values plus
    [undefined], a JavaScript exception is the [Throw] branch of a small
    error monad, [process.env] is a partial map from names to strings, the
    rate-limit stores are finite maps keyed by the client key, and the mail
    client is a trace of calls answered by a relay oracle.

    A [Request] is the request as the routes see it: [body] is [req.body]
    after [express.json], [xss-clean] and [express-mongo-sanitize] have
    run.  What the code takes from the platform (the URL constructor,
    string conversion, the clock) is a parameter, [Platform]; module
    [Reference] gives one instance.

    Strings are [string]s whose characters stand for the code units
    U+0000..U+00FF; [ws_char] and [lower_char] are the restrictions of the
    ECMAScript white-space class and of [toLowerCase] to that range. *)

From Stdlib Require Import ZArith List Ascii String Bool Lia.
From stdpp Require Import gmap strings.

Import ListNotations.
Local Open Scope string_scope.
Local Open Scope Z_scope.

(** ** JavaScript strings *)

Module JS.

Definition code (c : ascii) : N := N_of_ascii c.

(** White space and line terminators of ECMAScript below U+0100:
    TAB, LF, VT, FF, CR, SPACE, NBSP.  This is the class removed by
    [String.prototype.trim] and matched by [\s]. *)
Definition ws_char (c : ascii) : bool :=
  let n := code c in
  ((9 <=? n) && (n <=? 13) || (n =? 32) || (n =? 160))%N.

(** [toLowerCase] on one code unit below U+0100: A-Z, and the Latin-1
    capitals U+00C0..U+00DE except the multiplication sign U+00D7. *)
Definition lower_char (c : ascii) : ascii :=
  let n := code c in
  if ((65 <=? n) && (n <=? 90)
      || (192 <=? n) && (n <=? 222) && negb (n =? 215))%N
  then ascii_of_N (n + 32) else c.

Fixpoint toLowerCase (s : string) : string :=
  match s with
  | EmptyString => EmptyString
  | String c r => String (lower_char c) (toLowerCase r)
  end.

Fixpoint trimStart (s : string) : string :=
  match s with
  | EmptyString => EmptyString
  | String c r => if ws_char c then trimStart r else s
  end.

Fixpoint trimEnd (s : string) : string :=
  match s with
  | EmptyString => EmptyString
  | String c r =>
      match trimEnd r with
      | EmptyString => if ws_char c then EmptyString else String c EmptyString
      | r' => String c r'
      end
  end.

(** [s.trim()] *)
Definition trim (s : string) : string := trimEnd (trimStart s).

(** [s.length] *)
Definition length (s : string) : Z := Z.of_nat (String.length s).

Fixpoint take (n : nat) (s : string) : string :=
  match n, s with
  | O, _ => EmptyString
  | _, EmptyString => EmptyString
  | S n', String c r => String c (take n' r)
  end.

Fixpoint drop (n : nat) (s : string) : string :=
  match n, s with
  | O, _ => s
  | _, EmptyString => EmptyString
  | S n', String _ r => drop n' r
  end.

(** [s.substring(a, b)]: both indices are clamped to [0, s.length] and
    swapped when [a > b]. *)
Definition substring (a b : Z) (s : string) : string :=
  let clamp i := Z.to_nat (Z.min (Z.max 0 i) (length s)) in
  let from := Nat.min (clamp a) (clamp b) in
  let to := Nat.max (clamp a) (clamp b) in
  take (to - from) (drop from s).

(** [s.split(",")[0]]: the part before the first comma. *)
Fixpoint before_comma (s : string) : string :=
  match s with
  | EmptyString => EmptyString
  | String c r => if Ascii.eqb c "," then EmptyString else String c (before_comma r)
  end.

(** [parts.join("\n")] *)
Fixpoint join_lines (parts : list string) : string :=
  match parts with
  | [] => EmptyString
  | [p] => p
  | p :: rest => p ++ String "010" (join_lines rest)
  end.

(** [list.includes(x)] on an array of strings. *)
Definition includes (l : list string) (x : string) : bool :=
  existsb (String.eqb x) l.

(** [text.split("\n")], used to speak about the lines of a mail body. *)
Fixpoint lines_go (cur : string) (s : string) : list string :=
  match s with
  | EmptyString => [cur]
  | String c r =>
      if Ascii.eqb c "010" then cur :: lines_go EmptyString r
      else lines_go (cur ++ String c EmptyString) r
  end.
Definition lines (s : string) : list string := lines_go EmptyString s.

(** A left-trimmed string is empty or starts with a visible character. *)
Definition starts_visible (s : string) : Prop :=
  match s with
  | EmptyString => True
  | String c _ => ws_char c = false
  end.

End JS.

(** ** Regular expressions

    The patterns of the source are regular, so [RegExp.prototype.test] is
    modelled by Brzozowski derivatives over an abstract syntax that mirrors
    the literal. *)

Module Regex.

Inductive regex : Type :=
| Void : regex
| Eps : regex
| Class (p : ascii -> bool) : regex
| Seq (r1 r2 : regex) : regex
| Alt (r1 r2 : regex) : regex
| Star (r : regex) : regex.

Fixpoint nullable (r : regex) : bool :=
  match r with
  | Void => false
  | Eps => true
  | Class _ => false
  | Seq r1 r2 => nullable r1 && nullable r2
  | Alt r1 r2 => nullable r1 || nullable r2
  | Star _ => true
  end.

Fixpoint deriv (c : ascii) (r : regex) : regex :=
  match r with
  | Void => Void
  | Eps => Void
  | Class p => if p c then Eps else Void
  | Seq r1 r2 =>
      if nullable r1 then Alt (Seq (deriv c r1) r2) (deriv c r2)
      else Seq (deriv c r1) r2
  | Alt r1 r2 => Alt (deriv c r1) (deriv c r2)
  | Star r1 => Seq (deriv c r1) (Star r1)
  end.

Fixpoint accepts (r : regex) (s : string) : bool :=
  match s with
  | EmptyString => nullable r
  | String c s' => accepts (deriv c r) s'
  end.

(** Declarative meaning of a pattern, against which [accepts] is proved. *)
Inductive Matches : regex -> string -> Prop :=
| MEps : Matches Eps EmptyString
| MClass p c : p c = true -> Matches (Class p) (String c EmptyString)
| MSeq r1 r2 s1 s2 :
    Matches r1 s1 -> Matches r2 s2 -> Matches (Seq r1 r2) (s1 ++ s2)
| MAltL r1 r2 s : Matches r1 s -> Matches (Alt r1 r2) s
| MAltR r1 r2 s : Matches r2 s -> Matches (Alt r1 r2) s
| MStarNil r : Matches (Star r) EmptyString
| MStarCons r s1 s2 :
    Matches r s1 -> Matches (Star r) s2 -> Matches (Star r) (s1 ++ s2).

(** Building blocks of the literals. *)
Definition chr (c : ascii) : regex := Class (Ascii.eqb c).
(** a character under the [i] flag *)
Definition chr_i (c : ascii) : regex :=
  Class (fun x => Ascii.eqb (JS.lower_char x) (JS.lower_char c)).
Definition range (lo hi : ascii) : regex :=
  Class (fun x => (N_of_ascii lo <=? N_of_ascii x)%N && (N_of_ascii x <=? N_of_ascii hi)%N).
Definition one_of (cs : list ascii) : regex :=
  Class (fun x => existsb (Ascii.eqb x) cs).
Definition any : regex := Class (fun _ => true).
Definition plus (r : regex) : regex := Seq r (Star r).

Fixpoint lit (s : string) : regex :=
  match s with
  | EmptyString => Eps
  | String c r => Seq (chr c) (lit r)
  end.

Fixpoint lit_i (s : string) : regex :=
  match s with
  | EmptyString => Eps
  | String c r => Seq (chr_i c) (lit_i r)
  end.

(** A literal as the source anchors it. *)
Inductive pattern : Type :=
| Whole (r : regex)        (* /^r$/ *)
| FromStart (r : regex).   (* /^r/  *)

(** [pattern.test(s)] *)
Definition test (p : pattern) (s : string) : bool :=
  match p with
  | Whole r => accepts r s
  | FromStart r => accepts (Seq r (Star any)) s
  end.

End Regex.

(** ** Values, exceptions and the platform *)

(** A request body after [express.json]: a JSON value; [JUndefined] stands
    for a property that is not there.  Numbers are integers: the code looks
    at a number only through its truthiness and through [>]. *)
#[warnings="-register-all"]
Inductive JSValue : Type :=
| JUndefined : JSValue
| JNull : JSValue
| JBool (b : bool) : JSValue
| JNum (n : Z) : JSValue
| JStr (s : string) : JSValue
| JArr (items : list JSValue) : JSValue
| JObj (fields : list (string * JSValue)) : JSValue.

(** A computation that returns or throws. *)
Inductive Result (A : Type) : Type :=
| Ok (a : A) : Result A
| Throw (msg : string) : Result A.
Arguments Ok {A} a.
Arguments Throw {A} msg.

Definition bind {A B : Type} (m : Result A) (k : A -> Result B) : Result B :=
  match m with
  | Ok a => k a
  | Throw e => Throw e
  end.

Notation "'let*' x ':=' m 'in' k" := (bind m (fun x => k))
  (at level 10, x name, m at level 100, k at level 200).

(** ToBoolean *)
Definition truthy (v : JSValue) : bool :=
  match v with
  | JUndefined | JNull => false
  | JBool b => b
  | JNum n => negb (n =? 0)
  | JStr s => negb (String.eqb s "")
  | JArr _ | JObj _ => true
  end.

(** [a || b] *)
Definition js_or (a b : JSValue) : JSValue := if truthy a then a else b.

(** [typeof v === "string"] *)
Definition is_string (v : JSValue) : bool :=
  match v with JStr _ => true | _ => false end.

Fixpoint assoc (k : string) (fields : list (string * JSValue)) : JSValue :=
  match fields with
  | [] => JUndefined
  | (k', v) :: rest => if String.eqb k k' then v else assoc k rest
  end.

(** [v.k] inside a destructuring pattern, for the keys the code reads
    ([name], [email], [url], [message], [description]): an own property of
    an object, nothing on arrays and primitives. *)
Definition prop (k : string) (v : JSValue) : JSValue :=
  match v with
  | JObj fields => assoc k fields
  | _ => JUndefined
  end.

(** [const { ... } = v] throws on [undefined] and [null]. *)
Definition destructurable (v : JSValue) : Result JSValue :=
  match v with
  | JUndefined | JNull => Throw "Cannot destructure property 'name' of 'req.body'"
  | _ => Ok v
  end.

(** [expr.trim()], where [expr] is the text of the receiver, for the
    message of the TypeError: only strings have the method. *)
Definition call_trim (expr : string) (v : JSValue) : Result string :=
  match v with
  | JStr s => Ok (JS.trim s)
  | JUndefined | JNull => Throw "Cannot read properties of undefined (reading 'trim')"
  | _ => Throw (expr ++ ".trim is not a function")
  end.

(** [expr.toLowerCase()] *)
Definition call_toLowerCase (expr : string) (v : JSValue) : Result string :=
  match v with
  | JStr s => Ok (JS.toLowerCase s)
  | JUndefined | JNull =>
      Throw "Cannot read properties of undefined (reading 'toLowerCase')"
  | _ => Throw (expr ++ ".toLowerCase is not a function")
  end.

(** [v.length] *)
Definition get_length (v : JSValue) : Result JSValue :=
  match v with
  | JStr s => Ok (JNum (JS.length s))
  | JArr items => Ok (JNum (Z.of_nat (List.length items)))
  | JObj fields => Ok (assoc "length" fields)
  | JBool _ | JNum _ => Ok JUndefined
  | JUndefined | JNull => Throw "Cannot read properties"
  end.

(** What [new URL(x)] exposes to the code. *)
Record URLRecord : Type := mkURL { protocol : string; hostname : string }.

(** What the code takes from the JavaScript platform and does not define:
    the WHATWG URL constructor ([None] when it throws), string conversion
    of a non-string value in a template literal, the relational comparison
    [v > n] when [v] needs ToPrimitive or string-to-number conversion
    ([None] when the conversion throws), and [Date.prototype.toISOString]
    of a clock reading in milliseconds. *)
Record Platform : Type := mkPlatform {
  URL_new : JSValue -> option URLRecord;
  ToString : JSValue -> string;
  gt_converted : JSValue -> Z -> option bool;
  toISOString : Z -> string
}.

(** [`${v}`] *)
Definition template (P : Platform) (v : JSValue) : string :=
  match v with
  | JStr s => s
  | _ => ToString P v
  end.

(** [v > n] for a number literal [n]. *)
Definition js_gt (P : Platform) (v : JSValue) (n : Z) : Result bool :=
  match v with
  | JUndefined => Ok false
  | JNull => Ok (0 >? n)
  | JBool b => Ok ((if b then 1 else 0) >? n)
  | JNum m => Ok (m >? n)
  | _ => match gt_converted P v n with
         | Some b => Ok b
         | None => Throw "Cannot convert object to primitive value"
         end
  end.

(** ** Requests, responses, environment, mail client *)

Record Request : Type := mkRequest {
  method : string;
  path : string;
  origin : option string;            (* req.headers.origin *)
  x_forwarded_for : option string;   (* req.headers["x-forwarded-for"] *)
  user_agent : option string;        (* req.headers["user-agent"] *)
  ip : string;                       (* req.ip *)
  body : JSValue                     (* req.body *)
}.

Inductive Payload : Type :=
| Json (fields : list (string * JSValue))
| Text (s : string)
| NoContent.

Record Response : Type := mkResponse { status : Z; payload : Payload }.

(** [process.env] *)
Definition Env : Type := string -> option string.

(** [!process.env.X] is false exactly for a non-empty string. *)
Definition env_set (env : Env) (k : string) : bool :=
  match env k with
  | Some s => negb (String.eqb s "")
  | None => false
  end.

(** [a || b] on two optional strings (headers, environment). *)
Definition opt_or (a : option string) (b : string) : string :=
  match a with
  | Some s => if String.eqb s "" then b else s
  | None => b
  end.

Record Transport : Type := mkTransport {
  host : string;
  port : string;            (* the argument of Number(..): SMTP_PORT || 587 *)
  secure : bool;
  auth_user : string;
  auth_pass : string;
  connectionTimeout : Z;
  socketTimeout : Z
}.

Record OutboundMessage : Type := mkMessage {
  from : string;
  to : string;
  replyTo : string;
  subject : string;
  text : string;
  headers : list (string * string)
}.

(** Calls made on the nodemailer client, in order. *)
Inductive MailCall : Type :=
| CreateTransport (t : Transport)
| Verify (t : Transport)
| SendMail (t : Transport) (m : OutboundMessage).

(** The SMTP relay as the handler sees it: [verify] resolves or rejects,
    [sendMail] resolves with a message id or rejects. *)
Record Relay : Type := mkRelay {
  verify : Transport -> Result unit;
  sendMail : Transport -> OutboundMessage -> Result string
}.

(** How a middleware or handler ends. *)
Inductive Outcome : Type :=
| Respond (r : Response)
| Next
| NextErr (msg : string)     (* next(err) *)
| Thrown (msg : string).     (* an exception, or a rejected async handler *)

Definition json (st : Z) (fields : list (string * JSValue)) : Outcome :=
  Respond (mkResponse st (Json fields)).

Definition sent_messages (calls : list MailCall) : list OutboundMessage :=
  flat_map (fun c => match c with SendMail _ m => [m] | _ => [] end) calls.

(** ** Library middleware: rate limiting and CORS *)

Module RateLimit.

Record Window : Type := mkWindow { start : Z; count : Z }.

Record Options : Type := mkOptions {
  windowMs : Z;
  max : Z;
  message : string;
  keyGenerator : Request -> string;
  skip : Request -> bool
}.

(** The library's defaults for the options the source leaves out. *)
Definition default_message : string := "Too many requests, please try again later.".
Definition default_keyGenerator (req : Request) : string := ip req.
Definition default_skip (_ : Request) : bool := false.

Definition inside (windowMs now : Z) (w : Window) : bool :=
  (start w <=? now) && (now <? start w + windowMs).

(** Modelled from the spec: the body of [rateLimit], which belongs to the
    express-rate-limit package and is not part of the sources.  Section
    4.2: look up or create the key's window; if the current time is
    outside the stored window, reset the count to 0 and set a new window
    start; increment the count; fail if the count exceeds the maximum.
    [tick] is that step on one key's entry, [hit] the step on the store. *)
Definition tick (o : Options) (now : Z) (entry : option Window) : Window * bool :=
  let w := match entry with
           | Some w => if inside (windowMs o) now w then w else mkWindow now 0
           | None => mkWindow now 0
           end in
  let w' := mkWindow (start w) (count w + 1) in
  (w', count w' <=? max o).

Definition hit (o : Options) (now : Z) (k : string)
    (store : gmap string Window) : gmap string Window * bool :=
  let '(w', allowed) := tick o now (store !! k) in
  (<[k := w']> store, allowed).

(** The answer of the middleware to an allowed or a refused request. *)
Definition verdict (o : Options) (allowed : bool) : Outcome :=
  if allowed then Next else Respond (mkResponse 429 (Text (message o))).

(** Modelled from the spec: the middleware returned by [rateLimit(options)],
    also of the express-rate-limit package.  A request for which [skip]
    holds is passed on without being counted; a counted request is passed
    on when [hit] allows it and is answered 429 with the message
    otherwise. *)
Definition middleware (o : Options) (now : Z) (req : Request)
    (store : gmap string Window) : gmap string Window * Outcome :=
  if skip o req then (store, Next)
  else
    let '(store', allowed) := hit o now (keyGenerator o req) store in
    (store', verdict o allowed).

(** A run of the middleware over timed requests, oldest first. *)
Fixpoint run (o : Options) (reqs : list (Z * Request))
    (store : gmap string Window) : gmap string Window * list Outcome :=
  match reqs with
  | [] => (store, [])
  | (now, req) :: rest =>
      let '(store', out) := middleware o now req store in
      let '(store'', outs) := run o rest store' in
      (store'', out :: outs)
  end.

(** The requests of one key in a run: their times, and their outcomes. *)
Definition has_key (o : Options) (k : string) (req : Request) : bool :=
  String.eqb (keyGenerator o req) k.

Definition times_for (o : Options) (k : string) (reqs : list (Z * Request)) : list Z :=
  map fst (List.filter (fun r => has_key o k (snd r)) reqs).

Definition outcomes_for (o : Options) (k : string) (reqs : list (Z * Request))
    (outs : list Outcome) : list Outcome :=
  map snd (List.filter (fun ro => has_key o k (snd (fst ro))) (combine reqs outs)).

(** One key on its own: the verdicts for requests at these times, starting
    from this entry. *)
Fixpoint key_run (o : Options) (times : list Z) (entry : option Window) : list bool :=
  match times with
  | [] => []
  | t :: rest =>
      let '(w', allowed) := tick o t entry in
      allowed :: key_run o rest (Some w')
  end.

(** The key has no window that is still open at [now]. *)
Definition no_open_window (o : Options) (now : Z) (entry : option Window) : Prop :=
  match entry with
  | Some w => inside (windowMs o) now w = false
  | None => True
  end.

End RateLimit.

Module Cors.

(** The [cors(options)] middleware with a function-valued [origin] option:
    the function receives [req.headers.origin]; an error goes to
    [next(err)]; otherwise a preflight (OPTIONS) request is answered at
    once with [optionsSuccessStatus] and any other request continues. *)
Definition middleware (origin_option : option string -> Result bool)
    (optionsSuccessStatus : Z) (req : Request) : Outcome :=
  match origin_option (origin req) with
  | Throw e => NextErr e
  | Ok _ =>
      if String.eqb (method req) "OPTIONS"
      then Respond (mkResponse optionsSuccessStatus NoContent)
      else Next
  end.

End Cors.

(** Express route matching with default settings: the path is compared
    case-insensitively and one trailing slash is allowed; a GET route also
    serves HEAD. *)
Definition path_matches (route : string) (req : Request) : bool :=
  let p := JS.toLowerCase (path req) in
  String.eqb p route || String.eqb p (route ++ "/").

Definition get_route (route : string) (req : Request) : bool :=
  (String.eqb (method req) "GET" || String.eqb (method req) "HEAD")
  && path_matches route req.

Definition post_route (route : string) (req : Request) : bool :=
  String.eqb (method req) "POST" && path_matches route req.

(** [array.filter(Boolean)] on an array of strings and [null]s. *)
Definition filter_Boolean (parts : list (option string)) : list string :=
  flat_map (fun p => match p with
                     | Some s => if String.eqb s "" then [] else [s]
                     | None => []
                     end) parts.

(** The three values the handler derives from an accepted body. *)
Record Sanitized : Type := mkSanitized {
  sanitizedName : string;
  sanitizedEmail : string;
  sanitizedMessage : string
}.

(** The state of the process: one store per limiter. *)
Record AppState : Type := mkAppState {
  global_store : gmap string RateLimit.Window;
  contact_store : gmap string RateLimit.Window
}.

(** ** [src/server.js] *)

Module Server.

(** [getClientIp(req)] *)
Definition getClientIp (req : Request) : string :=
  match x_forwarded_for req with
  | Some xff =>
      if negb (String.eqb xff "") then JS.trim (JS.before_comma xff)
      else ip req
  | None => ip req
  end.

Definition allowedOrigins : list string :=
  [ "https://jalwan.app";
    "https://www.jalwan.app";
    "http://localhost:3000";
    "http://localhost:3001" ].

(** [corsOptions.origin(origin, callback)]: [Ok true] is
    [callback(null, true)], [Throw] is [callback(new Error(..))]. *)
Definition corsOptions_origin (origin : option string) : Result bool :=
  match origin with
  | None => Ok true
  | Some o =>
      if String.eqb o "" then Ok true
      else if JS.includes allowedOrigins o then Ok true
      else Throw "CORS policy violation"
  end.

Definition globalLimiter : RateLimit.Options :=
  {| RateLimit.windowMs := 15 * 60 * 1000;
     RateLimit.max := 5;
     RateLimit.message := RateLimit.default_message;
     RateLimit.keyGenerator := RateLimit.default_keyGenerator;
     RateLimit.skip := fun req => String.eqb (path req) "/health" |}.

Definition contactLimiter : RateLimit.Options :=
  {| RateLimit.windowMs := 60 * 60 * 1000;
     RateLimit.max := 3;
     RateLimit.message := "Too many contact requests, try again in 1 hour";
     RateLimit.keyGenerator := getClientIp;
     RateLimit.skip := RateLimit.default_skip |}.

(** [[^\s@]] *)
Definition not_space_at : Regex.regex :=
  Regex.Class (fun c => negb (JS.ws_char c || Ascii.eqb c "@")).

(** [/^[^\s@]+@[^\s@]+\.[^\s@]+$/] *)
Definition emailRegex : Regex.pattern :=
  Regex.Whole
    (Regex.Seq (Regex.plus not_space_at)
       (Regex.Seq (Regex.chr "@")
          (Regex.Seq (Regex.plus not_space_at)
             (Regex.Seq (Regex.chr ".") (Regex.plus not_space_at))))).

Definition isValidEmail (email : JSValue) : bool :=
  match email with
  | JStr s => Regex.test emailRegex s && (JS.length s <=? 254)
  | _ => false
  end.

Definition privateHosts : list Regex.pattern :=
  [ Regex.Whole (Regex.lit_i "localhost");                    (* /^localhost$/i *)
    Regex.FromStart (Regex.lit "127.");                       (* /^127\./ *)
    Regex.FromStart (Regex.lit "10.");                        (* /^10\./ *)
    Regex.FromStart (Regex.lit "192.168.");                   (* /^192\.168\./ *)
    Regex.FromStart                                           (* /^172\.(1[6-9]|2[0-9]|3[01])\./ *)
      (Regex.Seq (Regex.lit "172.")
         (Regex.Seq
            (Regex.Alt (Regex.Seq (Regex.chr "1") (Regex.range "6" "9"))
               (Regex.Alt (Regex.Seq (Regex.chr "2") (Regex.range "0" "9"))
                  (Regex.Seq (Regex.chr "3") (Regex.one_of ["0"; "1"]%char))))
            (Regex.chr ".")));
    Regex.Whole (Regex.lit "::1") ].                          (* /^::1$/ *)

Section WithPlatform.
Context (P : Platform).

Definition isValidUrl (url : JSValue) : bool :=
  match URL_new P url with
  | None => false
  | Some u =>
      if negb (JS.includes ["http:"; "https:"] (protocol u)) then false
      else negb (existsb (fun r => Regex.test r (hostname u)) privateHosts)
  end.

(** [message || description || ""] *)
Definition finalMessage (b : JSValue) : JSValue :=
  js_or (js_or (prop "message" b) (prop "description" b)) (JStr "").

(** [!name || name.trim().length < 2 || name.length > 100] *)
Definition name_rejected (name : JSValue) : Result bool :=
  if negb (truthy name) then Ok true
  else
    let* t := call_trim "name" name in
    if JS.length t <? 2 then Ok true
    else let* l := get_length name in js_gt P l 100.

(** [finalMessage && finalMessage.length > 500] *)
Definition message_rejected (fm : JSValue) : Result bool :=
  if truthy fm then let* l := get_length fm in js_gt P l 500
  else Ok false.

Definition validate (req : Request) : Result Outcome :=
  let b := js_or (body req) (JObj []) in
  let name := prop "name" b in
  let email := prop "email" b in
  let url := prop "url" b in
  let fm := finalMessage b in
  let* bad_name := name_rejected name in
  if bad_name then Ok (json 400 [("error", JStr "Invalid name")])
  else if negb (isValidEmail email) then
    Ok (json 400 [("error", JStr "Invalid email")])
  else if negb (isValidUrl url) then
    Ok (json 400 [("error", JStr "Invalid URL")])
  else
    let* bad_message := message_rejected fm in
    if bad_message then Ok (json 400 [("error", JStr "Message too long")])
    else Ok Next.

(** The middleware: an exception leaves it as [Thrown]. *)
Definition validateContactRequest (req : Request) : Outcome :=
  match validate req with
  | Ok o => o
  | Throw e => Thrown e
  end.

(** [name.trim().substring(0, 100)] *)
Definition sanitizeName (name : JSValue) : Result string :=
  let* t := call_trim "name" name in Ok (JS.substring 0 100 t).

(** [email.trim().toLowerCase()] *)
Definition sanitizeEmail (email : JSValue) : Result string :=
  let* t := call_trim "email" email in Ok (JS.toLowerCase t).

(** [finalMessage ? finalMessage.trim().substring(0, 500) : ""] *)
Definition sanitizeMessage (fm : JSValue) : Result string :=
  if truthy fm then let* t := call_trim "finalMessage" fm in Ok (JS.substring 0 500 t)
  else Ok "".

Definition sanitize (b : JSValue) : Result Sanitized :=
  let* n := sanitizeName (prop "name" b) in
  let* e := sanitizeEmail (prop "email" b) in
  let* m := sanitizeMessage (finalMessage b) in
  Ok (mkSanitized n e m).

Definition emailBody (now : Z) (req : Request) (url : JSValue)
    (s : Sanitized) : string :=
  JS.join_lines (filter_Boolean
    [ Some ("Name: " ++ sanitizedName s);
      Some ("Email: " ++ sanitizedEmail s);
      Some ("Web App URL: " ++ template P url);
      (if String.eqb (sanitizedMessage s) "" then None
       else Some ("Message: " ++ sanitizedMessage s));
      Some "";
      Some "---- META ----";
      Some ("IP Address: " ++ getClientIp req);
      Some ("User-Agent: " ++ opt_or (user_agent req) "Unknown");
      Some ("Submitted At: " ++ toISOString P now) ]).

Definition config_missing (env : Env) : bool :=
  negb (env_set env "SMTP_HOST") || negb (env_set env "SMTP_USER")
  || negb (env_set env "SMTP_PASS") || negb (env_set env "TO_EMAIL").

Definition transport (env : Env) : Transport :=
  {| host := opt_or (env "SMTP_HOST") "";
     port := opt_or (env "SMTP_PORT") "587";
     secure := match env "SMTP_SECURE" with
               | Some v => String.eqb v "true"
               | None => false
               end;
     auth_user := opt_or (env "SMTP_USER") "";
     auth_pass := opt_or (env "SMTP_PASS") "";
     connectionTimeout := 5000;
     socketTimeout := 5000 |}.

Definition outbound (env : Env) (now : Z) (req : Request) (url : JSValue)
    (s : Sanitized) : OutboundMessage :=
  {| from := opt_or (env "FROM_EMAIL") (opt_or (env "SMTP_USER") "");
     to := opt_or (env "TO_EMAIL") "";
     replyTo := sanitizedEmail s;
     subject := "[Jalwan] New Contact from " ++ sanitizedName s;
     text := emailBody now req url s;
     headers := [ ("X-Client-IP", getClientIp req);
                  ("X-Mailer", "Jalwan Contact API") ] |}.

(** The [try] block: create the transport, verify, send. *)
Definition deliver (relay : Relay) (t : Transport) (m : OutboundMessage)
    : Outcome * list MailCall :=
  match verify relay t with
  | Throw _ =>
      (json 503 [("error", JStr "Unable to send message")],
       [CreateTransport t; Verify t])
  | Ok _ =>
      match sendMail relay t m with
      | Throw _ =>
          (json 503 [("error", JStr "Unable to send message")],
           [CreateTransport t; Verify t; SendMail t m])
      | Ok _ =>
          (json 200 [("success", JBool true)],
           [CreateTransport t; Verify t; SendMail t m])
      end
  end.

(** The async handler of [POST /contact]. *)
Definition contactHandler (env : Env) (relay : Relay) (now : Z)
    (req : Request) : Outcome * list MailCall :=
  match (let* b := destructurable (body req) in
         let* s := sanitize b in Ok (b, s)) with
  | Throw e => (Thrown e, [])
  | Ok (b, s) =>
      if config_missing env then
        (json 500 [("error", JStr "Email not configured")], [])
      else deliver relay (transport env) (outbound env now req (prop "url" b) s)
  end.


Definition healthHandler (now : Z) : Outcome :=
  json 200 [("status", JStr "ok"); ("time", JStr (toISOString P now))].

Definition notFound : Outcome :=
  json 404 [("error", JStr "Endpoint not found")].

(** The four-argument error middleware. *)
Definition errorMiddleware (msg : string) : Outcome :=
  if String.eqb msg "CORS policy violation"
  then json 403 [("error", JStr "CORS blocked")]
  else json 500 [("error", JStr "Internal server error")].

(** What Express does with the outcome of a synchronous middleware:
    [next(err)] and a thrown exception both reach the error middleware. *)
Definition settle (o : Outcome) : Outcome :=
  match o with
  | NextErr e | Thrown e => errorMiddleware e
  | _ => o
  end.

(** [validateContactRequest] followed, on [next()], by the handler.
    The handler is async: when it rejects, nothing in the file answers
    the request, and the outcome stays [Thrown]. *)
Definition contactRoute (env : Env) (relay : Relay) (now : Z)
    (req : Request) : Outcome * list MailCall :=
  match validateContactRequest req with
  | Next => contactHandler env relay now req
  | o => (settle o, [])
  end.

(** One request through the application, in the order of the
    [app.use] / [app.get] / [app.post] calls. *)
Definition app (env : Env) (relay : Relay) (now : Z) (st : AppState)
    (req : Request) : AppState * Outcome * list MailCall :=
  match Cors.middleware corsOptions_origin 204 req with
  | Next =>
      let '(g, out) := RateLimit.middleware globalLimiter now req (global_store st) in
      let st1 := mkAppState g (contact_store st) in
      match out with
      | Next =>
          if get_route "/health" req then (st1, healthHandler now, [])
          else if post_route "/contact" req then
            let '(c, out') := RateLimit.middleware contactLimiter now req (contact_store st1) in
            let st2 := mkAppState g c in
            match out' with
            | Next =>
                let '(o, calls) := contactRoute env relay now req in
                (st2, o, calls)
            | o => (st2, o, [])
            end
          else (st1, notFound, [])
      | o => (st1, o, [])
      end
  | o => (st, settle o, [])
  end.

End WithPlatform.

End Server.

(** ** [src/unnamed/part_000], the sibling revision *)

Module Part000.

Definition allowedOrigins : list string :=
  [ "https://jalwan.app";
    "https://www.jalwan.app";
    "http://localhost:3000";
    "http://localhost:3001" ].

Definition corsOptions_origin (origin : option string) : Result bool :=
  match origin with
  | None => Ok true
  | Some o =>
      if String.eqb o "" then Ok true
      else if JS.includes allowedOrigins o then Ok true
      else Throw "CORS policy violation"
  end.

Definition limiter : RateLimit.Options :=
  {| RateLimit.windowMs := 15 * 60 * 1000;
     RateLimit.max := 5;
     RateLimit.message := "Too many requests, please try again later";
     RateLimit.keyGenerator := RateLimit.default_keyGenerator;
     RateLimit.skip := fun req => String.eqb (path req) "/health" |}.

Definition contactLimiter : RateLimit.Options :=
  {| RateLimit.windowMs := 60 * 60 * 1000;
     RateLimit.max := 3;
     RateLimit.message := "Too many contact requests, please try again in an hour";
     RateLimit.keyGenerator := fun req => opt_or (x_forwarded_for req) (ip req);
     RateLimit.skip := RateLimit.default_skip |}.

Definition not_space_at : Regex.regex :=
  Regex.Class (fun c => negb (JS.ws_char c || Ascii.eqb c "@")).

Definition emailRegex : Regex.pattern :=
  Regex.Whole
    (Regex.Seq (Regex.plus not_space_at)
       (Regex.Seq (Regex.chr "@")
          (Regex.Seq (Regex.plus not_space_at)
             (Regex.Seq (Regex.chr ".") (Regex.plus not_space_at))))).

Definition isValidEmail (email : JSValue) : bool :=
  match email with
  | JStr s => Regex.test emailRegex s && (JS.length s <=? 254)
  | _ => false
  end.

Definition privatePatterns : list Regex.pattern :=
  [ Regex.Whole (Regex.lit_i "localhost");                    (* /^localhost$/i *)
    Regex.Whole (Regex.lit "127.0.0.1");                      (* /^127\.0\.0\.1$/ *)
    Regex.Whole (Regex.lit "::1");                            (* /^::1$/ *)
    Regex.FromStart (Regex.lit "192.168.");                   (* /^192\.168\./ *)
    Regex.FromStart (Regex.lit "10.");                        (* /^10\./ *)
    Regex.FromStart                                           (* /^172\.(1[6-9]|2[0-9]|3[01])\./ *)
      (Regex.Seq (Regex.lit "172.")
         (Regex.Seq
            (Regex.Alt (Regex.Seq (Regex.chr "1") (Regex.range "6" "9"))
               (Regex.Alt (Regex.Seq (Regex.chr "2") (Regex.range "0" "9"))
                  (Regex.Seq (Regex.chr "3") (Regex.one_of ["0"; "1"]%char))))
            (Regex.chr "."))) ].

Section WithPlatform.
Context (P : Platform).

Definition isValidUrl (url : JSValue) : bool :=
  match URL_new P url with
  | None => false
  | Some parsed =>
      if negb (JS.includes ["http:"; "https:"] (protocol parsed)) then false
      else if existsb (fun pattern => Regex.test pattern (hostname parsed)) privatePatterns
      then false
      else true
  end.

Definition finalMessage (b : JSValue) : JSValue :=
  js_or (js_or (prop "message" b) (prop "description" b)) (JStr "").

(** No step of this validator can throw, so it is written without the
    error monad. *)
Definition validateContactRequest (req : Request) : Outcome :=
  let b := js_or (body req) (JObj []) in
  let name := prop "name" b in
  let email := prop "email" b in
  let url := prop "url" b in
  let fm := finalMessage b in
  match name with
  | JStr n =>
      if negb (truthy name) || (JS.length (JS.trim n) <? 2) then
        json 400 [("error", JStr "Name must be at least 2 characters")]
      else if JS.length n >? 100 then
        json 400 [("error", JStr "Name must be less than 100 characters")]
      else if negb (isValidEmail email) then
        json 400 [("error", JStr "Valid email is required")]
      else if negb (isValidUrl url) then
        json 400 [("error", JStr "Valid web application URL is required")]
      else
        match fm with
        | JStr m =>
            if truthy fm && (JS.length m >? 500) then
              json 400 [("error", JStr "Message must be less than 500 characters")]
            else Next
        | _ => Next
        end
  | _ =>
      (* !name || typeof name !== "string" *)
      json 400 [("error", JStr "Name must be at least 2 characters")]
  end.

Definition sanitizeName (name : JSValue) : Result string :=
  let* t := call_trim "name" name in Ok (JS.substring 0 100 t).

(** [email.toLowerCase().trim()] *)
Definition sanitizeEmail (email : JSValue) : Result string :=
  let* l := call_toLowerCase "email" email in Ok (JS.trim l).

Definition sanitizeMessage (fm : JSValue) : Result string :=
  if truthy fm then let* t := call_trim "finalMessage" fm in Ok (JS.substring 0 500 t)
  else Ok "".

Definition sanitize (b : JSValue) : Result Sanitized :=
  let* n := sanitizeName (prop "name" b) in
  let* e := sanitizeEmail (prop "email" b) in
  let* m := sanitizeMessage (finalMessage b) in
  Ok (mkSanitized n e m).

Definition emailBody (url : JSValue) (s : Sanitized) : string :=
  JS.join_lines (filter_Boolean
    [ Some ("Name: " ++ sanitizedName s);
      Some ("Email: " ++ sanitizedEmail s);
      Some ("Web App URL: " ++ template P url);
      (if String.eqb (sanitizedMessage s) "" then None
       else Some ("Message: " ++ sanitizedMessage s)) ]).

Definition config_missing (env : Env) : bool :=
  negb (env_set env "SMTP_HOST") || negb (env_set env "SMTP_USER")
  || negb (env_set env "SMTP_PASS") || negb (env_set env "TO_EMAIL").

Definition transport (env : Env) : Transport :=
  {| host := opt_or (env "SMTP_HOST") "";
     port := opt_or (env "SMTP_PORT") "587";
     secure := match env "SMTP_SECURE" with
               | Some v => String.eqb v "true"
               | None => false
               end;
     auth_user := opt_or (env "SMTP_USER") "";
     auth_pass := opt_or (env "SMTP_PASS") "";
     connectionTimeout := 5000;
     socketTimeout := 5000 |}.

Definition outbound (env : Env) (url : JSValue) (s : Sanitized)
    : OutboundMessage :=
  {| from := opt_or (env "FROM_EMAIL") (opt_or (env "SMTP_USER") "");
     to := opt_or (env "TO_EMAIL") "";
     replyTo := sanitizedEmail s;
     subject := "[Jalwan] New Pentest Request from " ++ sanitizedName s;
     text := emailBody url s;
     headers := [ ("X-Mailer", "Jalwan Contact API") ] |}.

Definition deliver (relay : Relay) (t : Transport) (m : OutboundMessage)
    : Outcome * list MailCall :=
  let failure :=
    json 503 [("error", JStr "Unable to process request, please try again later")] in
  match verify relay t with
  | Throw _ => (failure, [CreateTransport t; Verify t])
  | Ok _ =>
      match sendMail relay t m with
      | Throw _ => (failure, [CreateTransport t; Verify t; SendMail t m])
      | Ok _ =>
          (json 200 [("success", JBool true);
                     ("message", JStr "Request received successfully")],
           [CreateTransport t; Verify t; SendMail t m])
      end
  end.

Definition contactHandler (env : Env) (relay : Relay) (req : Request)
    : Outcome * list MailCall :=
  match (let* b := destructurable (body req) in
         let* s := sanitize b in Ok (b, s)) with
  | Throw e => (Thrown e, [])
  | Ok (b, s) =>
      if config_missing env then
        (json 500 [("error", JStr "Email service not configured")], [])
      else deliver relay (transport env) (outbound env (prop "url" b) s)
  end.

Definition healthHandler (now : Z) : Outcome :=
  json 200 [("status", JStr "ok"); ("timestamp", JStr (toISOString P now))].

Definition notFound : Outcome :=
  json 404 [("error", JStr "Endpoint not found")].

(** The error middleware; an error raised by the code of this file
    carries no [status], so [err.status || 500] is 500. *)
Definition errorMiddleware (env : Env) (msg : string) : Outcome :=
  if String.eqb msg "CORS policy violation"
  then json 403 [("error", JStr "CORS policy violation")]
  else json 500 [("error",
         JStr (match env "NODE_ENV" with
               | Some "production" => "Internal server error"
               | _ => msg
               end))].

Definition settle (env : Env) (o : Outcome) : Outcome :=
  match o with
  | NextErr e | Thrown e => errorMiddleware env e
  | _ => o
  end.

Definition contactRoute (env : Env) (relay : Relay) (req : Request)
    : Outcome * list MailCall :=
  match validateContactRequest req with
  | Next => contactHandler env relay req
  | o => (settle env o, [])
  end.

Definition app (env : Env) (relay : Relay) (now : Z) (st : AppState)
    (req : Request) : AppState * Outcome * list MailCall :=
  match Cors.middleware corsOptions_origin 200 req with
  | Next =>
      let '(g, out) := RateLimit.middleware limiter now req (global_store st) in
      let st1 := mkAppState g (contact_store st) in
      match out with
      | Next =>
          if get_route "/health" req then (st1, healthHandler now, [])
          else if post_route "/contact" req then
            let '(c, out') := RateLimit.middleware contactLimiter now req (contact_store st1) in
            let st2 := mkAppState g c in
            match out' with
            | Next =>
                let '(o, calls) := contactRoute env relay req in
                (st2, o, calls)
            | o => (st2, o, [])
            end
          else (st1, notFound, [])
      | o => (st1, o, [])
      end
  | o => (st, settle env o, [])
  end.

End WithPlatform.

End Part000.

(** ** A reference platform

    A concrete [Platform] on which the general statements are instantiated.
    Its URL constructor covers the inputs [scheme://host[:port][/...]] of
    the WHATWG grammar: the scheme and the host are lower-cased, an IPv6
    literal keeps its brackets in [hostname], everything else is a parse
    failure. *)

Module Reference.

Fixpoint span (p : ascii -> bool) (s : string) : string * string :=
  match s with
  | EmptyString => (EmptyString, EmptyString)
  | String c r =>
      if p c then let '(a, b) := span p r in (String c a, b)
      else (EmptyString, s)
  end.

Definition between (lo hi : N) (c : ascii) : bool :=
  (lo <=? N_of_ascii c)%N && (N_of_ascii c <=? hi)%N.
Definition is_alpha (c : ascii) : bool := between 65 90 c || between 97 122 c.
Definition is_digit (c : ascii) : bool := between 48 57 c.
Definition is_scheme_char (c : ascii) : bool :=
  is_alpha c || is_digit c || existsb (Ascii.eqb c) ["+"; "-"; "."]%char.

Fixpoint all_chars (p : ascii -> bool) (s : string) : bool :=
  match s with
  | EmptyString => true
  | String c r => p c && all_chars p r
  end.

Definition port_ok (tail : string) : bool :=
  match tail with
  | EmptyString => true
  | String c digits => Ascii.eqb c ":" && all_chars is_digit digits
  end.

Definition host_char (c : ascii) : bool :=
  negb (existsb (Ascii.eqb c) ["/"; "?"; "#"; "\"; "@"; " "]%char).

Definition parse (s : string) : option URLRecord :=
  let '(scheme, rest) := span is_scheme_char s in
  match scheme, rest with
  | String c0 _, String ":" (String "/" (String "/" after)) =>
      if is_alpha c0 then
        let '(authority, _) := span host_char after in
        match authority with
        | EmptyString => None
        | String "[" _ =>
            let '(inner, tail) := span (fun c => negb (Ascii.eqb c "]")) authority in
            match tail with
            | String _ p =>
                if port_ok p
                then Some (mkURL (JS.toLowerCase scheme ++ ":")
                                 (JS.toLowerCase inner ++ "]"))
                else None
            | EmptyString => None
            end
        | _ =>
            let '(h, p) := span (fun c => negb (Ascii.eqb c ":")) authority in
            if String.eqb h "" then None
            else if port_ok p
            then Some (mkURL (JS.toLowerCase scheme ++ ":") (JS.toLowerCase h))
            else None
        end
      else None
  | _, _ => None
  end.

Fixpoint pad (width : nat) (n : Z) : string :=
  match width with
  | O => EmptyString
  | S w => pad w (n / 10) ++ String (ascii_of_N (48 + Z.to_N (n mod 10))) EmptyString
  end.

Fixpoint decimal (fuel : nat) (n : Z) : string :=
  match fuel with
  | O => EmptyString
  | S f =>
      (if n / 10 =? 0 then EmptyString else decimal f (n / 10))
      ++ String (ascii_of_N (48 + Z.to_N (n mod 10))) EmptyString
  end.

Definition number (n : Z) : string :=
  if n <? 0 then "-" ++ decimal (Z.to_nat (- n)) (- n)
  else if n =? 0 then "0" else decimal (Z.to_nat n) n.

Fixpoint toString (v : JSValue) : string :=
  match v with
  | JUndefined => "undefined"
  | JNull => "null"
  | JBool b => if b then "true" else "false"
  | JNum n => number n
  | JStr s => s
  | JArr items =>
      (fix join (l : list JSValue) : string :=
         let element x := match x with
                          | JUndefined | JNull => EmptyString
                          | _ => toString x
                          end in
         match l with
         | [] => EmptyString
         | [x] => element x
         | x :: r => element x ++ "," ++ join r
         end) items
  | JObj _ => "[object Object]"
  end.

Fixpoint digits_value (acc : Z) (s : string) : Z :=
  match s with
  | EmptyString => acc
  | String c r => digits_value (10 * acc + (Z.of_N (N_of_ascii c) - 48)) r
  end.

(** [v > n] after conversion: a string of decimal digits is its value,
    any other text is NaN. *)
Definition gt (v : JSValue) (n : Z) : option bool :=
  let s := JS.trim (toString v) in
  if all_chars is_digit s then Some (digits_value 0 s >? n) else Some false.

(** Days since the epoch to (year, month, day), proleptic Gregorian. *)
Definition civil (days : Z) : Z * Z * Z :=
  let z := days + 719468 in
  let era := z / 146097 in
  let doe := z - era * 146097 in
  let yoe := (doe - doe / 1460 + doe / 36524 - doe / 146096) / 365 in
  let doy := doe - (365 * yoe + yoe / 4 - yoe / 100) in
  let mp := (5 * doy + 2) / 153 in
  let d := doy - (153 * mp + 2) / 5 + 1 in
  let m := if mp <? 10 then mp + 3 else mp - 9 in
  ((if m <=? 2 then yoe + era * 400 + 1 else yoe + era * 400), m, d).

Definition iso (ms : Z) : string :=
  let '(y, m, d) := civil (ms / 86400000) in
  let t := ms mod 86400000 in
  pad 4 y ++ "-" ++ pad 2 m ++ "-" ++ pad 2 d ++ "T"
  ++ pad 2 (t / 3600000) ++ ":" ++ pad 2 (t / 60000 mod 60) ++ ":"
  ++ pad 2 (t / 1000 mod 60) ++ "." ++ pad 3 (t mod 1000) ++ "Z".

Definition platform : Platform :=
  {| URL_new := fun v => parse (toString v);
     ToString := toString;
     gt_converted := gt;
     toISOString := iso |}.

(** Sample inputs. *)
Definition request (m p : string) (o : option string) (b : JSValue) : Request :=
  {| method := m; path := p; origin := o; x_forwarded_for := None;
     user_agent := None; ip := "203.0.113.7"; body := b |}.

Definition submission (name email url message : JSValue) : JSValue :=
  JObj [("name", name); ("email", email); ("url", url); ("message", message)].

Definition jo : JSValue :=
  submission (JStr "Jo Smith") (JStr "jo@example.com")
    (JStr "https://app.example.com") (JStr "Please review").

(** A submission that is well-formed but for its name. *)
Definition named (name : JSValue) : JSValue :=
  submission name (JStr "jo@example.com") (JStr "https://example.com") JUndefined.

(** A well-formed submission with this message and this description. *)
Definition with_messages (message description : JSValue) : JSValue :=
  JObj [("name", JStr "Jo Smith"); ("email", JStr "jo@example.com");
        ("url", JStr "https://example.com"); ("message", message);
        ("description", description)].

Definition post (b : JSValue) : Request := request "POST" "/contact" None b.

(** The same from another client address. *)
Definition post_from (address : string) (b : JSValue) : Request :=
  {| method := "POST"; path := "/contact"; origin := None;
     x_forwarded_for := None; user_agent := None; ip := address; body := b |}.

Fixpoint repeat (c : ascii) (n : nat) : string :=
  match n with
  | O => EmptyString
  | S k => String c (repeat c k)
  end.

Definition env_complete : Env := fun k =>
  if String.eqb k "SMTP_HOST" then Some "smtp.example.net"
  else if String.eqb k "SMTP_USER" then Some "mailer@example.net"
  else if String.eqb k "SMTP_PASS" then Some "secret"
  else if String.eqb k "TO_EMAIL" then Some "owner@example.net"
  else None.

Definition env_empty : Env := fun _ => None.

Definition relay_ok : Relay :=
  {| verify := fun _ => Ok tt; sendMail := fun _ _ => Ok "<1@relay>" |}.

Definition fresh : AppState := mkAppState ∅ ∅.

End Reference.

(** ** Vocabulary of the statements *)

(** The origins the guard lets through: no [Origin] header, an empty one,
    or a member of the allow-list. *)
Definition origin_permitted (allow : list string) (o : option string) : Prop :=
  o = None \/ o = Some EmptyString \/ exists s, o = Some s /\ In s allow.

(** The hosts the specification excludes, in its words: [localhost] (in any
    case), a host that starts with [127.], [10.] or [192.168.], one that
    starts with [172.16.] through [172.31.], and [::1]. *)
Definition starts_with (p s : string) : Prop := exists rest, s = (p ++ rest)%string.

Definition second_octets : list string :=
  ["16"; "17"; "18"; "19"; "20"; "21"; "22"; "23";
   "24"; "25"; "26"; "27"; "28"; "29"; "30"; "31"].

Definition private_host (h : string) : Prop :=
  JS.toLowerCase h = "localhost"
  \/ starts_with "127." h
  \/ starts_with "10." h
  \/ starts_with "192.168." h
  \/ (exists o, In o second_octets /\ starts_with ("172." ++ o ++ ".") h)
  \/ h = "::1".

(** The same request with another body. *)
Definition with_body (req : Request) (b : JSValue) : Request :=
  {| method := method req; path := path req; origin := origin req;
     x_forwarded_for := x_forwarded_for req; user_agent := user_agent req;
     ip := ip req; body := b |}.

(** A sanitized contact put back as a request body. *)
Definition resubmit (s : Sanitized) : JSValue :=
  JObj [("name", JStr (sanitizedName s)); ("email", JStr (sanitizedEmail s));
        ("message", JStr (sanitizedMessage s))].

(** [{ error: msg }] with status [code]. *)
Definition error_response (code : Z) (msg : string) : Outcome :=
  json code [("error", JStr msg)].

(** What both validators have established about a body they accept: the
    name is a string within the bounds and the email a string that the
    pattern matches. *)
Record Accepted (b : JSValue) (n e : string) : Prop := mkAccepted {
  acc_name : prop "name" b = JStr n;
  acc_name_min : 2 <= JS.length (JS.trim n);
  acc_name_max : JS.length n <= 100;
  acc_email : prop "email" b = JStr e;
  acc_email_ok : Regex.test Server.emailRegex e = true
}.

(** The strings [[^\s@]+] matches: non-empty, of characters that are neither
    white space nor [@]. *)
Definition plain_char (c : ascii) : bool := negb (JS.ws_char c || Ascii.eqb c "@").

Definition plain (s : string) : Prop :=
  s <> EmptyString /\ Reference.all_chars plain_char s = true.

(** [local@domain.tld], each of the three parts plain. *)
Definition email_shape (s : string) : Prop :=
  exists l d t, s = (l ++ "@" ++ d ++ "." ++ t)%string /\ plain l /\ plain d /\ plain t.

(** No white space anywhere in the string. *)
Definition no_space (s : string) : Prop :=
  Reference.all_chars (fun c => negb (JS.ws_char c)) s = true.

(** No comma anywhere in the string. *)
Definition no_comma (s : string) : Prop :=
  Reference.all_chars (fun c => negb (Ascii.eqb c ",")) s = true.

(** The name bounds, on the value of the [name] property. *)
Definition name_in_bounds (name : JSValue) : Prop :=
  exists n, name = JStr n /\ 2 <= JS.length (JS.trim n) /\ JS.length n <= 100.

(** A sanitized contact put back as a request body, with the URL it came
    with. *)
Definition sanitized_body (url : JSValue) (s : Sanitized) : JSValue :=
  JObj [("name", JStr (sanitizedName s)); ("email", JStr (sanitizedEmail s));
        ("url", url); ("message", JStr (sanitizedMessage s))].

(** * Properties *)

(** ** String primitives *)

Module JSFacts.
Import JS.

Ltac each_char c := destruct c as [[] [] [] [] [] [] [] []]; reflexivity.

Lemma ws_lower_char (c : ascii) : ws_char (lower_char c) = ws_char c.
Proof. each_char c. Qed.

Lemma lower_char_idem (c : ascii) : lower_char (lower_char c) = lower_char c.
Proof. each_char c. Qed.

Lemma toLowerCase_idem (s : string) : toLowerCase (toLowerCase s) = toLowerCase s.
Proof.
  induction s as [|c r IH]; simpl; [reflexivity|].
  now rewrite lower_char_idem, IH.
Qed.

Lemma trimStart_toLowerCase (s : string) :
  trimStart (toLowerCase s) = toLowerCase (trimStart s).
Proof.
  induction s as [|c r IH]; simpl; [reflexivity|].
  rewrite ws_lower_char. destruct (ws_char c); [exact IH | reflexivity].
Qed.

Lemma trimEnd_toLowerCase (s : string) :
  trimEnd (toLowerCase s) = toLowerCase (trimEnd s).
Proof.
  induction s as [|c r IH]; simpl; [reflexivity|].
  rewrite IH, ws_lower_char.
  destruct (trimEnd r); simpl; [destruct (ws_char c)|]; reflexivity.
Qed.

Lemma trim_toLowerCase (s : string) : trim (toLowerCase s) = toLowerCase (trim s).
Proof. unfold trim. now rewrite trimStart_toLowerCase, trimEnd_toLowerCase. Qed.

Lemma trimEnd_idem (s : string) : trimEnd (trimEnd s) = trimEnd s.
Proof.
  induction s as [|c r IH]; simpl; [reflexivity|].
  destruct (trimEnd r) as [|d r'] eqn:E.
  - destruct (ws_char c) eqn:W; simpl; [reflexivity | now rewrite W].
  - change (trimEnd (String c (String d r'))) with
      (match trimEnd (String d r') with
       | EmptyString => if ws_char c then EmptyString else String c EmptyString
       | x => String c x
       end).
    now rewrite IH.
Qed.

Lemma trimStart_visible (s : string) : starts_visible (trimStart s).
Proof.
  induction s as [|c r IH]; simpl; [exact I|].
  destruct (ws_char c) eqn:W; [exact IH | exact W].
Qed.

Lemma trimStart_fixed (s : string) : starts_visible s -> trimStart s = s.
Proof. destruct s as [|c r]; simpl; [reflexivity|]. now intros ->. Qed.

Lemma trimEnd_visible (s : string) : starts_visible s -> starts_visible (trimEnd s).
Proof.
  destruct s as [|c r]; simpl; [exact id|]. intros W.
  destruct (trimEnd r); [rewrite W|]; exact W.
Qed.

Lemma trim_idem (s : string) : trim (trim s) = trim s.
Proof.
  unfold trim.
  rewrite (trimStart_fixed (trimEnd (trimStart s))).
  - apply trimEnd_idem.
  - apply trimEnd_visible, trimStart_visible.
Qed.

Lemma length_trimStart (s : string) : length (trimStart s) <= length s.
Proof.
  unfold length. induction s as [|c r IH]; simpl; [lia|].
  destruct (ws_char c); simpl; lia.
Qed.

Lemma length_trimEnd (s : string) : length (trimEnd s) <= length s.
Proof.
  unfold length. induction s as [|c r IH]; simpl; [lia|].
  destruct (trimEnd r); [destruct (ws_char c)|]; simpl in *; lia.
Qed.

Lemma length_trim (s : string) : length (trim s) <= length s.
Proof.
  unfold trim. pose proof (length_trimEnd (trimStart s)).
  pose proof (length_trimStart s). lia.
Qed.

Lemma take_all (n : nat) (s : string) : (String.length s <= n)%nat -> take n s = s.
Proof.
  revert n. induction s as [|c r IH]; intros [|n] H; simpl in *;
    try reflexivity; try lia.
  f_equal. apply IH. lia.
Qed.

(** [s.substring(0, n)] leaves a string of at most [n] units unchanged. *)
Lemma substring_short (n : Z) (s : string) :
  length s <= n -> substring 0 n s = s.
Proof.
  unfold substring, length. intros H.
  replace (Z.to_nat (Z.min (Z.max 0 0) (Z.of_nat (String.length s)))) with 0%nat by lia.
  replace (Z.to_nat (Z.min (Z.max 0 n) (Z.of_nat (String.length s))))
    with (String.length s) by lia.
  simpl. rewrite Nat.sub_0_r. now apply take_all.
Qed.

(** Trimming and lower-casing an email twice, in either order of the two
    revisions, is the same as once. *)
Lemma lower_trim_twice (e : string) :
  toLowerCase (trim (toLowerCase (trim e))) = toLowerCase (trim e).
Proof. now rewrite trim_toLowerCase, trim_idem, toLowerCase_idem. Qed.

Lemma trim_lower_twice (e : string) :
  trim (toLowerCase (trim (toLowerCase e))) = trim (toLowerCase e).
Proof.
  rewrite (trim_toLowerCase (trim (toLowerCase e))), trim_idem.
  now rewrite trim_toLowerCase, toLowerCase_idem.
Qed.

End JSFacts.

(** ** The origin guard *)

Lemma includes_In (l : list string) (x : string) :
  JS.includes l x = true <-> In x l.
Proof.
  unfold JS.includes. rewrite existsb_exists. split.
  - intros (y & Hy & E). apply String.eqb_eq in E. now subst.
  - intros H. exists x. split; [exact H | apply String.eqb_refl].
Qed.

Lemma corsOptions_origin_permitted (o : option string) :
  origin_permitted Server.allowedOrigins o ->
  Server.corsOptions_origin o = Ok true.
Proof.
  intros [-> | [-> | (s & -> & Hin)]]; try reflexivity.
  unfold Server.corsOptions_origin.
  destruct (String.eqb s EmptyString); [reflexivity|].
  apply includes_In in Hin. now rewrite Hin.
Qed.

Lemma corsOptions_origin_rejected (o : option string) :
  ~ origin_permitted Server.allowedOrigins o ->
  Server.corsOptions_origin o = Throw "CORS policy violation".
Proof.
  intros H. destruct o as [s|]; [|exfalso; apply H; now left].
  unfold Server.corsOptions_origin.
  destruct (String.eqb s EmptyString) eqn:E.
  - apply String.eqb_eq in E. subst. exfalso. apply H. right. now left.
  - destruct (JS.includes Server.allowedOrigins s) eqn:I; [|reflexivity].
    apply includes_In in I. exfalso. apply H. right. right. now exists s.
Qed.

Lemma origin_permitted_dec (o : option string) :
  origin_permitted Server.allowedOrigins o \/ ~ origin_permitted Server.allowedOrigins o.
Proof.
  destruct (Server.corsOptions_origin o) eqn:E.
  - left. destruct o as [s|]; [|now left].
    unfold Server.corsOptions_origin in E.
    destruct (String.eqb s EmptyString) eqn:E0.
    + apply String.eqb_eq in E0. subst. right. now left.
    + destruct (JS.includes Server.allowedOrigins s) eqn:I; [|discriminate].
      apply includes_In in I. right. right. now exists s.
  - right. intros H. apply corsOptions_origin_permitted in H. congruence.
Qed.

(** The sibling revision has the same allow-list and the same callback. *)
Lemma corsOptions_origin_same (o : option string) :
  Part000.corsOptions_origin o = Server.corsOptions_origin o.
Proof. reflexivity. Qed.

(** C8, as stated, fails: an [Origin] header that is present and empty is
    not on the allow-list, and the guard lets the request through. *)
Lemma origin_guard_permits_empty_origin :
  JS.includes Server.allowedOrigins EmptyString = false
  /\ Server.corsOptions_origin (Some EmptyString) = Ok true
  /\ Cors.middleware Server.corsOptions_origin 204
       (Reference.request "POST" "/contact" (Some EmptyString) Reference.jo) = Next
  /\ Cors.middleware Part000.corsOptions_origin 200
       (Reference.request "POST" "/contact" (Some EmptyString) Reference.jo) = Next.
Proof. repeat split. Qed.

(** C8, amended: a request whose declared origin is absent, empty or on the
    allow-list passes the guard (a preflight is answered by the guard
    itself); any other request is answered 403 by the error middleware,
    not 500, and nothing after the guard runs: both limiter stores are
    unchanged and the mail client is not called.  Both revisions. *)
Theorem origin_guard (P : Platform) (env : Env) (relay : Relay) (now : Z)
    (st : AppState) (req : Request) :
  (origin_permitted Server.allowedOrigins (origin req) ->
     Cors.middleware Server.corsOptions_origin 204 req
       = (if String.eqb (method req) "OPTIONS"
          then Respond (mkResponse 204 NoContent) else Next)
     /\ Cors.middleware Part000.corsOptions_origin 200 req
       = (if String.eqb (method req) "OPTIONS"
          then Respond (mkResponse 200 NoContent) else Next))
  /\ (~ origin_permitted Server.allowedOrigins (origin req) ->
     Server.app P env relay now st req
       = (st, error_response 403 "CORS blocked", [])
     /\ Part000.app P env relay now st req
       = (st, error_response 403 "CORS policy violation", [])).
Proof.
  split; intros H.
  - unfold Cors.middleware.
    change Part000.corsOptions_origin with Server.corsOptions_origin.
    now rewrite (corsOptions_origin_permitted _ H).
  - unfold Server.app, Part000.app, Cors.middleware.
    change Part000.corsOptions_origin with Server.corsOptions_origin.
    now rewrite (corsOptions_origin_rejected _ H).
Qed.

Lemma origin_guard_witness :
  Cors.middleware Server.corsOptions_origin 204
    (Reference.request "POST" "/contact" (Some "https://jalwan.app") Reference.jo) = Next
  /\ Server.app Reference.platform Reference.env_complete Reference.relay_ok 0
       Reference.fresh
       (Reference.request "POST" "/contact" (Some "https://evil.example") Reference.jo)
     = (Reference.fresh, error_response 403 "CORS blocked", []).
Proof.
  split.
  - apply (origin_guard Reference.platform Reference.env_complete Reference.relay_ok 0
             Reference.fresh
             (Reference.request "POST" "/contact" (Some "https://jalwan.app") Reference.jo)).
    right. right. exists "https://jalwan.app". split; [reflexivity | simpl; tauto].
  - apply (origin_guard Reference.platform Reference.env_complete Reference.relay_ok 0
             Reference.fresh
             (Reference.request "POST" "/contact" (Some "https://evil.example") Reference.jo)).
    intros [E | [E | (s & E & Hin)]]; try discriminate.
    injection E as <-. simpl in Hin. intuition discriminate.
Defined.

(** ** The health route *)

(** C5, as stated, fails: the origin guard is mounted before every route,
    so a health check that declares an origin outside the allow-list is
    answered 403, in both revisions. *)
Lemma health_behind_origin_guard :
  Server.app Reference.platform Reference.env_complete Reference.relay_ok 0
    Reference.fresh
    (Reference.request "GET" "/health" (Some "https://evil.example") JUndefined)
  = (Reference.fresh, error_response 403 "CORS blocked", [])
  /\ Part000.app Reference.platform Reference.env_complete Reference.relay_ok 0
       Reference.fresh
       (Reference.request "GET" "/health" (Some "https://evil.example") JUndefined)
     = (Reference.fresh, error_response 403 "CORS policy violation", []).
Proof. split; reflexivity. Qed.

(** C5, amended: every [GET /health] whose declared origin is absent, empty
    or on the allow-list is answered 200 with the JSON body
    [{status: "ok", time: <now as ISO string>}] (the key is [timestamp] in
    the sibling revision); whatever the limiter stores hold, the request is
    not counted and not limited: the global limiter skips the path, the
    contact limiter is not on the route, and both stores are left as they
    were. *)
Theorem health_ok (P : Platform) (env : Env) (relay : Relay) (now : Z)
    (st : AppState) (req : Request) :
  method req = "GET" ->
  path req = "/health" ->
  origin_permitted Server.allowedOrigins (origin req) ->
  Server.app P env relay now st req
    = (st, json 200 [("status", JStr "ok"); ("time", JStr (toISOString P now))], [])
  /\ Part000.app P env relay now st req
    = (st, json 200 [("status", JStr "ok"); ("timestamp", JStr (toISOString P now))], []).
Proof.
  intros Hm Hp Ho.
  unfold Server.app, Part000.app, Cors.middleware, RateLimit.middleware.
  change Part000.corsOptions_origin with Server.corsOptions_origin.
  rewrite (corsOptions_origin_permitted _ Ho), Hm.
  unfold get_route, path_matches. cbn [RateLimit.skip Server.globalLimiter Part000.limiter].
  rewrite Hm, Hp. destruct st as [g c]. split; reflexivity.
Qed.

Lemma health_ok_witness :
  Server.app Reference.platform Reference.env_empty Reference.relay_ok 1700000000000
    Reference.fresh (Reference.request "GET" "/health" None JUndefined)
  = (Reference.fresh,
     json 200 [("status", JStr "ok"); ("time", JStr "2023-11-14T22:13:20.000Z")], []).
Proof.
  apply (health_ok Reference.platform Reference.env_empty Reference.relay_ok
           1700000000000 Reference.fresh
           (Reference.request "GET" "/health" None JUndefined));
    [reflexivity | reflexivity | now left].
Defined.

(** A permitted health check leaves both limiter stores as they were. *)
Lemma health_leaves_stores (P : Platform) (env : Env) (relay : Relay) (now : Z)
    (st : AppState) (req : Request) :
  method req = "GET" ->
  path req = "/health" ->
  origin_permitted Server.allowedOrigins (origin req) ->
  fst (fst (Server.app P env relay now st req)) = st.
Proof.
  intros Hm Hp Ho.
  unfold Server.app, Cors.middleware, RateLimit.middleware.
  rewrite (corsOptions_origin_permitted _ Ho), Hm.
  cbn [RateLimit.skip Server.globalLimiter]. rewrite Hp.
  unfold get_route, path_matches. rewrite Hm, Hp. now destruct st.
Qed.

(** The exemption does not depend on how many requests came before: after
    any run of health checks the stores are what they were. *)
Lemma health_never_counted (P : Platform) (env : Env) (relay : Relay)
    (st : AppState) (reqs : list (Z * Request)) :
  Forall (fun '(_, req) => method req = "GET" /\ path req = "/health"
                           /\ origin_permitted Server.allowedOrigins (origin req)) reqs ->
  fold_left (fun s '(now, req) => fst (fst (Server.app P env relay now s req))) reqs st = st.
Proof.
  induction 1 as [|[now req] rest (Hm & Hp & Ho) _ IH]; simpl; [reflexivity|].
  now rewrite (health_leaves_stores P env relay now st req Hm Hp Ho).
Qed.

(** ** The validator and exceptions *)

(** In [server.js] a name that is truthy and not a string makes
    [name.trim()] throw inside the validator. *)
Lemma validate_throws_on_non_string_name (P : Platform) (req : Request) :
  truthy (prop "name" (js_or (body req) (JObj []))) = true ->
  is_string (prop "name" (js_or (body req) (JObj []))) = false ->
  Server.validateContactRequest P req = Thrown "name.trim is not a function".
Proof.
  intros Ht Hs. unfold Server.validateContactRequest, Server.validate, Server.name_rejected.
  rewrite Ht. simpl.
  destruct (prop "name" (js_or (body req) (JObj []))); simpl in *;
    try discriminate; reflexivity.
Qed.


(** C4 fails on [server.js]: for the body
    [{name: 123, email: "jo@example.com", url: "https://example.com"}] the
    validator throws a TypeError, which reaches the error middleware and is
    answered with the generic 500, where the claim promises a 400 or
    acceptance. *)
Theorem validator_throws_on_number_name (P : Platform) (env : Env)
    (relay : Relay) (now : Z) :
  Server.validateContactRequest P (Reference.post (Reference.named (JNum 123)))
    = Thrown "name.trim is not a function"
  /\ Server.contactRoute P env relay now (Reference.post (Reference.named (JNum 123)))
    = (error_response 500 "Internal server error", [])
  /\ snd (fst (Server.app P env relay now Reference.fresh
                 (Reference.post (Reference.named (JNum 123)))))
    = error_response 500 "Internal server error".
Proof.
  assert (H : Server.validateContactRequest P (Reference.post (Reference.named (JNum 123)))
              = Thrown "name.trim is not a function")
    by (now apply validate_throws_on_non_string_name).
  split; [exact H|]. split.
  - unfold Server.contactRoute. now rewrite H.
  - unfold Server.app, Server.contactRoute. rewrite H. reflexivity.
Qed.

(** ** URL validation *)

Lemma isValidUrl_parse_failure (P : Platform) (url : JSValue) :
  URL_new P url = None ->
  Server.isValidUrl P url = false /\ Part000.isValidUrl P url = false.
Proof. intros H. unfold Server.isValidUrl, Part000.isValidUrl. now rewrite H. Qed.

Lemma isValidUrl_scheme (P : Platform) (url : JSValue) (u : URLRecord) :
  URL_new P url = Some u ->
  protocol u <> "http:" -> protocol u <> "https:" ->
  Server.isValidUrl P url = false /\ Part000.isValidUrl P url = false.
Proof.
  intros H H1 H2. unfold Server.isValidUrl, Part000.isValidUrl. rewrite H.
  assert (E : JS.includes ["http:"; "https:"] (protocol u) = false).
  { destruct (JS.includes _ _) eqn:I; [|reflexivity].
    apply includes_In in I. simpl in I. intuition congruence. }
  now rewrite E.
Qed.

(** The hosts the specification lists are refused under any scheme. *)
Lemma isValidUrl_listed_hosts (P : Platform) (url : JSValue) (u : URLRecord) :
  URL_new P url = Some u ->
  In (hostname u) ["localhost"; "127.0.0.1"; "10.0.0.5"; "192.168.1.1"; "172.20.0.1"] ->
  Server.isValidUrl P url = false /\ Part000.isValidUrl P url = false.
Proof.
  intros H Hin. unfold Server.isValidUrl, Part000.isValidUrl. rewrite H.
  destruct (negb (JS.includes ["http:"; "https:"] (protocol u))); [now split|].
  simpl in Hin.
  destruct Hin as [<- | [<- | [<- | [<- | [<- | []]]]]]; split; reflexivity.
Qed.

Lemma isValidUrl_example_com (P : Platform) (url : JSValue) :
  URL_new P url = Some (mkURL "https:" "example.com") ->
  Server.isValidUrl P url = true /\ Part000.isValidUrl P url = true.
Proof.
  intros H. unfold Server.isValidUrl, Part000.isValidUrl. rewrite H. now split.
Qed.

(** C1 fails on the IPv6 loopback: the URL constructor reports the host of
    [http://[::1]/] with its brackets, as [[::1]], which the pattern
    [/^::1$/] does not match, so both revisions accept the URL and the
    validator of [server.js] lets the submission through. *)
Theorem ipv6_loopback_accepted (P : Platform) (url : JSValue) :
  URL_new P url = Some (mkURL "http:" "[::1]") ->
  Server.isValidUrl P url = true
  /\ Part000.isValidUrl P url = true
  /\ Server.validateContactRequest P
       (Reference.post (Reference.submission (JStr "Jo Smith") (JStr "jo@example.com")
                          url (JStr "Please review"))) = Next.
Proof.
  intros H.
  assert (V : Server.isValidUrl P url = true)
    by (unfold Server.isValidUrl; now rewrite H).
  split; [exact V|]. split.
  - unfold Part000.isValidUrl. now rewrite H.
  - unfold Server.validateContactRequest, Server.validate.
    cbn [body Reference.post Reference.request Reference.submission js_or truthy
         prop assoc String.eqb Ascii.eqb Bool.eqb].
    rewrite V. reflexivity.
Qed.

Lemma ipv6_loopback_accepted_witness :
  Server.isValidUrl Reference.platform (JStr "http://[::1]/") = true.
Proof.
  apply (ipv6_loopback_accepted Reference.platform (JStr "http://[::1]/")).
  reflexivity.
Defined.

(** In the sibling revision the loopback pattern is [/^127\.0\.0\.1$/], so
    the rest of 127.0.0.0/8 passes as well. *)
Lemma sibling_accepts_other_loopback (P : Platform) (url : JSValue) :
  URL_new P url = Some (mkURL "http:" "127.0.0.2") ->
  Part000.isValidUrl P url = true /\ Server.isValidUrl P url = false.
Proof.
  intros H. unfold Server.isValidUrl, Part000.isValidUrl. rewrite H. now split.
Qed.

(** ** What acceptance by the validator implies *)

(** The body the validator destructures: [req.body || {}]. *)
Lemma body_with_name (v : JSValue) :
  truthy (prop "name" (js_or v (JObj []))) = true ->
  js_or v (JObj []) = v /\ destructurable v = Ok v.
Proof.
  unfold js_or.
  destruct v as [| |[]|n|s|l|fs]; simpl; try discriminate; auto.
  - destruct (n =? 0); simpl; [discriminate | auto].
  - destruct s; simpl; [discriminate | auto].
Qed.

Lemma server_accepts (P : Platform) (req : Request) :
  Server.validateContactRequest P req = Next ->
  exists n e, Accepted (body req) n e
    /\ Server.isValidUrl P (prop "url" (body req)) = true
    /\ Server.message_rejected P (Server.finalMessage (body req)) = Ok false
    /\ destructurable (body req) = Ok (body req).
Proof.
  unfold Server.validateContactRequest, Server.validate, Server.name_rejected.
  intros H.
  destruct (truthy (prop "name" (js_or (body req) (JObj [])))) eqn:T;
    [|discriminate H].
  destruct (body_with_name _ T) as [Eb Ed]. rewrite Eb in *.
  destruct (prop "name" (body req)) as [| |[]|k|n|l|fs] eqn:En;
    simpl in H, T; try discriminate.
  destruct (JS.length (JS.trim n) <? 2) eqn:L2; [discriminate H|].
  simpl in H. destruct (JS.length n >? 100) eqn:L100; [discriminate H|].
  destruct (Server.isValidEmail (prop "email" (body req))) eqn:Ee; [|discriminate H].
  destruct (prop "email" (body req)) as [| | | |e| |] eqn:Em; try discriminate Ee.
  simpl in H, Ee. apply andb_prop in Ee as [Ee _].
  destruct (Server.isValidUrl P (prop "url" (body req))) eqn:Eu; [|discriminate H].
  simpl in H.
  destruct (Server.message_rejected P (Server.finalMessage (body req))) as [[]|] eqn:Mr;
    try discriminate H.
  exists n, e. repeat split; auto; lia.
Qed.

Lemma sibling_accepts (P : Platform) (req : Request) :
  Part000.validateContactRequest P req = Next ->
  exists n e, Accepted (body req) n e
    /\ Part000.isValidUrl P (prop "url" (body req)) = true
    /\ (forall m, Part000.finalMessage (body req) = JStr m -> JS.length m <= 500)
    /\ destructurable (body req) = Ok (body req).
Proof.
  unfold Part000.validateContactRequest. intros H.
  destruct (prop "name" (js_or (body req) (JObj []))) as [| | | |n| |] eqn:En;
    try discriminate H.
  destruct (truthy (JStr n)) eqn:T; [|discriminate H].
  rewrite <- En in T. destruct (body_with_name _ T) as [Eb Ed]. rewrite Eb in *.
  simpl in H.
  destruct (JS.length (JS.trim n) <? 2) eqn:L2; [discriminate H|].
  destruct (JS.length n >? 100) eqn:L100; [discriminate H|].
  destruct (Part000.isValidEmail (prop "email" (body req))) eqn:Ee; [|discriminate H].
  destruct (prop "email" (body req)) as [| | | |e| |] eqn:Em; try discriminate Ee.
  simpl in H, Ee. apply andb_prop in Ee as [Ee _].
  destruct (Part000.isValidUrl P (prop "url" (body req))) eqn:Eu; [|discriminate H].
  simpl in H.
  exists n, e. repeat split; auto; try lia.
  intros m Hm. rewrite Hm in H.
  destruct (truthy (JStr m)) eqn:Tm; simpl in H.
  - destruct (JS.length m >? 500) eqn:L; [discriminate H | lia].
  - simpl in Tm. destruct m; [unfold JS.length; simpl; lia | discriminate Tm].
Qed.

(** ** Missing mail configuration *)

(** Without the configuration the mail client is not called, whatever the
    request. *)
Lemma no_relay_call_without_config (P : Platform) (env : Env) (relay : Relay)
    (now : Z) (req : Request) :
  Server.config_missing env = true ->
  snd (Server.contactRoute P env relay now req) = []
  /\ snd (Part000.contactRoute P env relay req) = [].
Proof.
  intros H. change (Part000.config_missing env = true) in H. split.
  - unfold Server.contactRoute, Server.contactHandler.
    destruct (Server.validateContactRequest P req); try reflexivity.
    destruct (bind _ _) as [[b s]|]; [|reflexivity].
    change (Part000.config_missing env) with (Server.config_missing env) in H.
    now rewrite H.
  - unfold Part000.contactRoute, Part000.contactHandler.
    destruct (Part000.validateContactRequest P req); try reflexivity.
    destruct (bind _ _) as [[b s]|]; [|reflexivity].
    now rewrite H.
Qed.

Lemma no_relay_call_without_config_witness :
  snd (Server.contactRoute Reference.platform Reference.env_empty Reference.relay_ok 0
         (Reference.post Reference.jo)) = [].
Proof.
  apply (no_relay_call_without_config Reference.platform Reference.env_empty
           Reference.relay_ok 0 (Reference.post Reference.jo)).
  reflexivity.
Defined.

Lemma sanitize_accepted (b : JSValue) (n e m : string) :
  Accepted b n e ->
  Server.finalMessage b = JStr m ->
  Server.sanitize b
    = Ok (mkSanitized (JS.substring 0 100 (JS.trim n))
                      (JS.toLowerCase (JS.trim e))
                      (if truthy (JStr m) then JS.substring 0 500 (JS.trim m)
                       else EmptyString))
  /\ Part000.sanitize b
    = Ok (mkSanitized (JS.substring 0 100 (JS.trim n))
                      (JS.trim (JS.toLowerCase e))
                      (if truthy (JStr m) then JS.substring 0 500 (JS.trim m)
                       else EmptyString)).
Proof.
  intros [Hn _ _ He _] Hm.
  unfold Server.sanitize, Part000.sanitize.
  change (Part000.finalMessage b) with (Server.finalMessage b).
  rewrite Hn, He, Hm.
  unfold Server.sanitizeMessage, Part000.sanitizeMessage.
  destruct (truthy (JStr m)); split; reflexivity.
Qed.

(** When the message that reaches the handler is a string, a request that
    passed validation is answered with the configuration error. *)
Lemma config_error_for_text_message (P : Platform) (env : Env) (relay : Relay)
    (now : Z) (req : Request) :
  Server.config_missing env = true ->
  is_string (Server.finalMessage (body req)) = true ->
  (Server.validateContactRequest P req = Next ->
   Server.contactRoute P env relay now req
     = (error_response 500 "Email not configured", []))
  /\ (Part000.validateContactRequest P req = Next ->
      Part000.contactRoute P env relay req
        = (error_response 500 "Email service not configured", [])).
Proof.
  intros Hc Hs.
  destruct (Server.finalMessage (body req)) as [| | | |m| |] eqn:Hm; try discriminate Hs.
  split; intros Hv.
  - destruct (server_accepts P req Hv) as (n & e & Ha & _ & _ & Hd).
    destruct (sanitize_accepted _ n e m Ha Hm) as [Es _].
    unfold Server.contactRoute, Server.contactHandler.
    rewrite Hv, Hd. cbn [bind]. rewrite Es. cbn [bind]. now rewrite Hc.
  - destruct (sibling_accepts P req Hv) as (n & e & Ha & _ & _ & Hd).
    destruct (sanitize_accepted _ n e m Ha Hm) as [_ Es].
    unfold Part000.contactRoute, Part000.contactHandler.
    change (Part000.config_missing env) with (Server.config_missing env).
    rewrite Hv, Hd. cbn [bind]. rewrite Es. cbn [bind]. now rewrite Hc.
Qed.

Lemma config_error_for_text_message_witness :
  Server.contactRoute Reference.platform Reference.env_empty Reference.relay_ok 0
    (Reference.post Reference.jo)
  = (error_response 500 "Email not configured", []).
Proof.
  apply (proj1 (config_error_for_text_message Reference.platform Reference.env_empty
                  Reference.relay_ok 0 (Reference.post Reference.jo)
                  eq_refl eq_refl)).
  reflexivity.
Defined.

(** C2 fails for a message that is not a string: the body
    [{name: "Jo Smith", email: "jo@example.com", url: "https://example.com",
      message: 42}] passes both validators, and with an empty environment
    the handler throws at [finalMessage.trim()], before it reaches the
    configuration test, so the request is not answered with the
    configuration error.  (The mail client is not called.) *)
Theorem config_error_skipped_by_number_message (P : Platform) (relay : Relay)
    (now : Z) :
  URL_new P (JStr "https://example.com") = Some (mkURL "https:" "example.com") ->
  Server.validateContactRequest P
    (Reference.post (Reference.with_messages (JNum 42) JUndefined)) = Next
  /\ Server.contactRoute P Reference.env_empty relay now
       (Reference.post (Reference.with_messages (JNum 42) JUndefined))
     = (Thrown "finalMessage.trim is not a function", [])
  /\ Part000.validateContactRequest P
       (Reference.post (Reference.with_messages (JNum 42) JUndefined)) = Next
  /\ Part000.contactRoute P Reference.env_empty relay
       (Reference.post (Reference.with_messages (JNum 42) JUndefined))
     = (Thrown "finalMessage.trim is not a function", []).
Proof.
  intros H.
  destruct (isValidUrl_example_com P _ H) as [U1 U2].
  assert (V1 : Server.validateContactRequest P
                 (Reference.post (Reference.with_messages (JNum 42) JUndefined)) = Next).
  { unfold Server.validateContactRequest, Server.validate.
    cbn [body Reference.post Reference.request Reference.with_messages js_or truthy
         prop assoc String.eqb Ascii.eqb Bool.eqb].
    rewrite U1. reflexivity. }
  assert (V2 : Part000.validateContactRequest P
                 (Reference.post (Reference.with_messages (JNum 42) JUndefined)) = Next).
  { unfold Part000.validateContactRequest.
    cbn [body Reference.post Reference.request Reference.with_messages js_or truthy
         prop assoc String.eqb Ascii.eqb Bool.eqb].
    rewrite U2. reflexivity. }
  repeat split; trivial.
  - unfold Server.contactRoute. rewrite V1. reflexivity.
  - unfold Part000.contactRoute. rewrite V2. reflexivity.
Qed.

Lemma config_error_skipped_by_number_message_witness :
  Server.contactRoute Reference.platform Reference.env_empty Reference.relay_ok 0
    (Reference.post (Reference.with_messages (JNum 42) JUndefined))
  = (Thrown "finalMessage.trim is not a function", []).
Proof.
  apply (config_error_skipped_by_number_message Reference.platform Reference.relay_ok 0).
  reflexivity.
Defined.

(** ** The accepted submission, end to end *)

(** On fresh limiter stores a [POST /contact] with a permitted origin
    reaches the validator, in both revisions. *)
Lemma fresh_post_reaches_route (P : Platform) (env : Env) (relay : Relay)
    (now : Z) (req : Request) :
  method req = "POST" ->
  path req = "/contact" ->
  origin_permitted Server.allowedOrigins (origin req) ->
  (exists st, Server.app P env relay now Reference.fresh req
              = (st, fst (Server.contactRoute P env relay now req),
                     snd (Server.contactRoute P env relay now req)))
  /\ (exists st, Part000.app P env relay now Reference.fresh req
                 = (st, fst (Part000.contactRoute P env relay req),
                        snd (Part000.contactRoute P env relay req))).
Proof.
  intros Hm Hp Ho.
  unfold Server.app, Part000.app, Cors.middleware, RateLimit.middleware, RateLimit.hit,
    RateLimit.tick.
  change Part000.corsOptions_origin with Server.corsOptions_origin.
  rewrite (corsOptions_origin_permitted _ Ho), Hm.
  unfold get_route, post_route, path_matches.
  cbn [RateLimit.skip RateLimit.keyGenerator RateLimit.windowMs RateLimit.max
       Server.globalLimiter Server.contactLimiter Part000.limiter
       Part000.contactLimiter RateLimit.default_skip Reference.fresh
       global_store contact_store].
  rewrite Hm, Hp. rewrite !lookup_empty.
  split; eexists.
  - cbn. destruct (Server.contactRoute P env relay now req). reflexivity.
  - cbn. destruct (Part000.contactRoute P env relay req). reflexivity.
Qed.

Lemma jo_is_accepted (P : Platform) (req : Request) :
  body req = Reference.jo ->
  URL_new P (JStr "https://app.example.com") = Some (mkURL "https:" "app.example.com") ->
  Server.validateContactRequest P req = Next
  /\ Part000.validateContactRequest P req = Next.
Proof.
  intros Hb Hu.
  assert (U1 : Server.isValidUrl P (JStr "https://app.example.com") = true)
    by (unfold Server.isValidUrl; now rewrite Hu).
  assert (U2 : Part000.isValidUrl P (JStr "https://app.example.com") = true)
    by (unfold Part000.isValidUrl; now rewrite Hu).
  unfold Server.validateContactRequest, Server.validate, Part000.validateContactRequest.
  rewrite Hb.
  cbn [Reference.jo Reference.submission js_or truthy prop assoc String.eqb
       Ascii.eqb Bool.eqb negb].
  rewrite U1, U2. split; reflexivity.
Qed.

(** C3: for the submission of the specification, a complete configuration
    and a relay that accepts everything, [POST /contact] on a fresh process
    is answered 200 with [success: true]; exactly one message is handed to
    the relay, its reply-to is [jo@example.com] and [Name: Jo Smith] is a
    line of its text.  Both revisions. *)
Theorem jo_smith_end_to_end (P : Platform) (env : Env) (relay : Relay)
    (now : Z) (req : Request) :
  method req = "POST" ->
  path req = "/contact" ->
  origin_permitted Server.allowedOrigins (origin req) ->
  body req = Reference.jo ->
  URL_new P (JStr "https://app.example.com") = Some (mkURL "https:" "app.example.com") ->
  Server.config_missing env = false ->
  (forall t, verify relay t = Ok tt) ->
  (forall t m, exists id, sendMail relay t m = Ok id) ->
  (exists st calls m,
      Server.app P env relay now Reference.fresh req
        = (st, json 200 [("success", JBool true)], calls)
      /\ sent_messages calls = [m]
      /\ replyTo m = "jo@example.com"
      /\ In "Name: Jo Smith" (JS.lines (text m)))
  /\ (exists st calls m,
      Part000.app P env relay now Reference.fresh req
        = (st, json 200 [("success", JBool true);
                         ("message", JStr "Request received successfully")], calls)
      /\ sent_messages calls = [m]
      /\ replyTo m = "jo@example.com"
      /\ In "Name: Jo Smith" (JS.lines (text m))).
Proof.
  intros Hm Hp Ho Hb Hu Hc Hv Hs.
  destruct (fresh_post_reaches_route P env relay now req Hm Hp Ho)
    as [(st1 & E1) (st2 & E2)].
  destruct (jo_is_accepted P req Hb Hu) as [V1 V2].
  split.
  - exists st1. rewrite E1. clear E1 E2.
    unfold Server.contactRoute, Server.contactHandler, Server.deliver.
    rewrite V1, Hb.
    change (destructurable Reference.jo) with (Ok Reference.jo). cbn [bind].
    change (Server.sanitize Reference.jo)
      with (Ok (mkSanitized "Jo Smith" "jo@example.com" "Please review")).
    cbn [bind]. rewrite Hc, Hv.
    match goal with |- context [sendMail relay ?t ?m] =>
      destruct (Hs t m) as [id ->]; exists [CreateTransport t; Verify t; SendMail t m], m
    end.
    repeat split. cbn. left. reflexivity.
  - exists st2. rewrite E2. clear E1 E2.
    unfold Part000.contactRoute, Part000.contactHandler, Part000.deliver.
    change (Part000.config_missing env) with (Server.config_missing env).
    rewrite V2, Hb.
    change (destructurable Reference.jo) with (Ok Reference.jo). cbn [bind].
    change (Part000.sanitize Reference.jo)
      with (Ok (mkSanitized "Jo Smith" "jo@example.com" "Please review")).
    cbn [bind]. rewrite Hc, Hv.
    match goal with |- context [sendMail relay ?t ?m] =>
      destruct (Hs t m) as [id ->]; exists [CreateTransport t; Verify t; SendMail t m], m
    end.
    repeat split. cbn. left. reflexivity.
Qed.

Lemma jo_smith_end_to_end_witness :
  exists st calls m,
    Server.app Reference.platform Reference.env_complete Reference.relay_ok 0
      Reference.fresh (Reference.post Reference.jo)
      = (st, json 200 [("success", JBool true)], calls)
    /\ sent_messages calls = [m]
    /\ replyTo m = "jo@example.com"
    /\ In "Name: Jo Smith" (JS.lines (text m)).
Proof.
  apply (jo_smith_end_to_end Reference.platform Reference.env_complete
           Reference.relay_ok 0 (Reference.post Reference.jo));
    try reflexivity.
  - now left.
  - intros t m. now exists "<1@relay>".
Defined.

(** ** The message and its alias *)

Lemma prop_or_empty (k : string) (v : JSValue) :
  prop k (js_or v (JObj [])) = prop k v.
Proof.
  unfold js_or. destruct v as [| |[]|n|s|l|fs]; simpl; try reflexivity.
  - now destruct (n =? 0).
  - now destruct s.
Qed.

Lemma body_with_message (v : JSValue) :
  truthy (prop "message" v) = true ->
  js_or v (JObj []) = v /\ destructurable v = Ok v.
Proof. destruct v; simpl; try discriminate; auto. Qed.

Lemma finalMessage_truthy_message (b : JSValue) :
  truthy (prop "message" b) = true ->
  Server.finalMessage b = prop "message" b.
Proof. intros H. unfold Server.finalMessage, js_or. now rewrite H, H. Qed.

Lemma finalMessage_falsy_message (b : JSValue) :
  truthy (prop "message" b) = false ->
  Server.finalMessage b = js_or (prop "description" b) (JStr EmptyString).
Proof. intros H. unfold Server.finalMessage. unfold js_or at 2. now rewrite H. Qed.

(** C7, as stated, fails: a [message] field that is present and empty gives
    way to [description].  The description is then the value that is
    length-checked (a 501-character description is refused although the
    message is empty) and the value that is mailed. *)
Lemma empty_message_yields_to_description :
  Server.finalMessage (Reference.with_messages (JStr EmptyString) (JStr "from the alias"))
    = JStr "from the alias"
  /\ Server.validateContactRequest Reference.platform
       (Reference.post (Reference.with_messages (JStr EmptyString)
                          (JStr (Reference.repeat "x" 501))))
     = error_response 400 "Message too long"
  /\ Part000.validateContactRequest Reference.platform
       (Reference.post (Reference.with_messages (JStr EmptyString)
                          (JStr (Reference.repeat "x" 501))))
     = error_response 400 "Message must be less than 500 characters"
  /\ map (fun m => JS.lines (text m))
       (sent_messages (snd (Part000.contactRoute Reference.platform
          Reference.env_complete Reference.relay_ok
          (Reference.post (Reference.with_messages (JStr EmptyString)
                             (JStr "from the alias"))))))
     = [["Name: Jo Smith"; "Email: jo@example.com";
         "Web App URL: https://example.com"; "Message: from the alias"]].
Proof. repeat split; vm_compute; reflexivity. Qed.

(** C7, amended: [description] stands in for the message only when
    [message] is absent or falsy (the empty string, [null], [false], [0]).
    Whenever [message] is truthy it is the submission's message: bodies
    that differ only in [description] are validated alike and produce the
    same response and the same mail.  Both revisions. *)
Theorem message_alias_precedence (P : Platform) (env : Env) (relay : Relay)
    (now : Z) (req : Request) (b' : JSValue) :
  truthy (prop "message" (body req)) = true ->
  (forall k, k <> "description" -> prop k b' = prop k (body req)) ->
  Server.finalMessage (body req) = prop "message" (body req)
  /\ Part000.finalMessage (body req) = prop "message" (body req)
  /\ Server.validateContactRequest P (with_body req b') = Server.validateContactRequest P req
  /\ Server.contactRoute P env relay now (with_body req b')
     = Server.contactRoute P env relay now req
  /\ Part000.validateContactRequest P (with_body req b') = Part000.validateContactRequest P req
  /\ Part000.contactRoute P env relay (with_body req b')
     = Part000.contactRoute P env relay req.
Proof.
  intros Ht Hk.
  assert (Hn : prop "name" b' = prop "name" (body req)) by (apply Hk; discriminate).
  assert (He : prop "email" b' = prop "email" (body req)) by (apply Hk; discriminate).
  assert (Hu : prop "url" b' = prop "url" (body req)) by (apply Hk; discriminate).
  assert (Hm : prop "message" b' = prop "message" (body req)) by (apply Hk; discriminate).
  assert (Ht' : truthy (prop "message" b') = true) by now rewrite Hm.
  pose proof (finalMessage_truthy_message _ Ht) as F.
  pose proof (finalMessage_truthy_message _ Ht') as F'.
  destruct (body_with_message _ Ht) as [Eo Ed].
  destruct (body_with_message _ Ht') as [Eo' Ed'].
  assert (V1 : Server.validateContactRequest P (with_body req b')
               = Server.validateContactRequest P req).
  { unfold Server.validateContactRequest, Server.validate.
    cbn [body with_body]. rewrite Eo, Eo', F, F', Hn, He, Hu, Hm. reflexivity. }
  assert (V2 : Part000.validateContactRequest P (with_body req b')
               = Part000.validateContactRequest P req).
  { unfold Part000.validateContactRequest.
    change Part000.finalMessage with Server.finalMessage.
    cbn [body with_body]. rewrite Eo, Eo', F, F', Hn, He, Hu, Hm. reflexivity. }
  assert (S1 : Server.sanitize b' = Server.sanitize (body req))
    by (unfold Server.sanitize; now rewrite F, F', Hn, He, Hm).
  assert (S2 : Part000.sanitize b' = Part000.sanitize (body req)).
  { unfold Part000.sanitize. change Part000.finalMessage with Server.finalMessage.
    now rewrite F, F', Hn, He, Hm. }
  repeat split; trivial.
  - unfold Server.contactRoute. rewrite V1.
    destruct (Server.validateContactRequest P req); try reflexivity.
    unfold Server.contactHandler. cbn [body with_body].
    rewrite Ed, Ed'. cbn [bind]. rewrite S1.
    destruct (Server.sanitize (body req)); cbn [bind]; [|reflexivity].
    rewrite Hu. reflexivity.
  - unfold Part000.contactRoute. rewrite V2.
    destruct (Part000.validateContactRequest P req); try reflexivity.
    unfold Part000.contactHandler. cbn [body with_body].
    rewrite Ed, Ed'. cbn [bind]. rewrite S2.
    destruct (Part000.sanitize (body req)); cbn [bind]; [|reflexivity].
    rewrite Hu. reflexivity.
Qed.

Lemma message_alias_precedence_witness :
  Server.contactRoute Reference.platform Reference.env_complete Reference.relay_ok 0
    (with_body (Reference.post (Reference.with_messages (JStr "Please review") JUndefined))
       (Reference.with_messages (JStr "Please review") (JStr "from the alias")))
  = Server.contactRoute Reference.platform Reference.env_complete Reference.relay_ok 0
      (Reference.post (Reference.with_messages (JStr "Please review") JUndefined)).
Proof.
  apply (message_alias_precedence Reference.platform Reference.env_complete
           Reference.relay_ok 0
           (Reference.post (Reference.with_messages (JStr "Please review") JUndefined))
           (Reference.with_messages (JStr "Please review") (JStr "from the alias"))).
  - reflexivity.
  - intros k Hk. cbn [prop Reference.with_messages Reference.post Reference.request body assoc].
    repeat match goal with
           | |- context [String.eqb k ?s] =>
               destruct (String.eqb_spec k s); [try reflexivity; congruence|]
           end.
    reflexivity.
Defined.

(** ** The name check *)

(** C9: a submission whose name is missing (or any other falsy value), or
    is a string with trimmed length below 2 or raw length above 100, is
    answered 400 with the name error and the mail client is not called; a
    string with trimmed length at least 2 and raw length at most 100 passes
    the name check (the validator's answer is not a name error).  Both
    revisions; the sibling revision has one message per bound. *)
Theorem name_check (P : Platform) (env : Env) (relay : Relay) (now : Z)
    (req : Request) :
  (truthy (prop "name" (body req)) = false
   \/ (exists s, prop "name" (body req) = JStr s
                 /\ (JS.length (JS.trim s) < 2 \/ JS.length s > 100)) ->
   Server.contactRoute P env relay now req = (error_response 400 "Invalid name", [])
   /\ (Part000.contactRoute P env relay req
         = (error_response 400 "Name must be at least 2 characters", [])
       \/ Part000.contactRoute P env relay req
         = (error_response 400 "Name must be less than 100 characters", [])))
  /\ (forall s, prop "name" (body req) = JStr s ->
      2 <= JS.length (JS.trim s) -> JS.length s <= 100 ->
      Server.name_rejected P (prop "name" (body req)) = Ok false
      /\ Server.validateContactRequest P req <> error_response 400 "Invalid name"
      /\ Part000.validateContactRequest P req
           <> error_response 400 "Name must be at least 2 characters"
      /\ Part000.validateContactRequest P req
           <> error_response 400 "Name must be less than 100 characters").
Proof.
  unfold Server.contactRoute, Part000.contactRoute, Server.validateContactRequest,
    Server.validate, Part000.validateContactRequest, Server.name_rejected.
  rewrite !prop_or_empty.
  split.
  - intros [Hf | (s & -> & Hs)].
    { rewrite Hf. cbn [negb bind].
      split; [reflexivity | left].
      destruct (prop "name" (body req)); reflexivity || discriminate Hf. }
    cbn [truthy call_trim get_length js_gt bind negb].
    destruct s as [|c s]; [split; [reflexivity | left; reflexivity]|].
    cbn [String.eqb negb].
    destruct (JS.length (JS.trim (String c s)) <? 2) eqn:L2; cbn [orb].
    + split; [reflexivity | left; reflexivity].
    + destruct (JS.length (String c s) >? 100) eqn:L100;
        [split; [reflexivity | right; reflexivity] | lia].
  - intros s -> Hmin Hmax.
    assert (Hs : s <> EmptyString)
      by (intros ->; unfold JS.length in Hmin; simpl in Hmin; lia).
    cbn [truthy call_trim get_length js_gt bind negb].
    destruct s as [|c s]; [congruence|]. cbn [String.eqb negb orb].
    replace (JS.length (JS.trim (String c s)) <? 2) with false by lia.
    replace (JS.length (String c s) >? 100) with false by lia.
    split; [reflexivity|].
    cbn [bind]. unfold error_response, json.
    repeat split;
      repeat match goal with
             | |- context [if ?b then _ else _] => destruct b
             | |- context [bind ?r _] => destruct r as [[]|]; cbn [bind]
             | |- context [match ?v with JStr _ => _ | _ => _ end] => destruct v
             end;
      discriminate.
Qed.

Lemma name_check_witness :
  Server.contactRoute Reference.platform Reference.env_complete Reference.relay_ok 0
    (Reference.post (Reference.named (JStr " J ")))
  = (error_response 400 "Invalid name", [])
  /\ Server.name_rejected Reference.platform
       (prop "name" (body (Reference.post (Reference.named (JStr "Jo Smith")))))
     = Ok false.
Proof.
  split.
  - apply (proj1 (name_check Reference.platform Reference.env_complete
                    Reference.relay_ok 0
                    (Reference.post (Reference.named (JStr " J "))))).
    right. exists " J ". split; [reflexivity | left; unfold JS.length; simpl; lia].
  - apply (proj2 (name_check Reference.platform Reference.env_complete
                    Reference.relay_ok 0
                    (Reference.post (Reference.named (JStr "Jo Smith")))) "Jo Smith");
      [reflexivity | unfold JS.length; simpl; lia | unfold JS.length; simpl; lia].
Defined.

(** ** The sanitizer *)

Lemma finalMessage_resubmit (s : Sanitized) :
  Server.finalMessage (resubmit s) = JStr (sanitizedMessage s).
Proof.
  unfold Server.finalMessage, resubmit, js_or. cbn [prop assoc String.eqb Ascii.eqb Bool.eqb].
  destruct (sanitizedMessage s); reflexivity.
Qed.

(** After acceptance the sanitized message, when there is one, is trimmed
    and within the bound. *)
Lemma sanitizeMessage_accepted (P : Platform) (fm : JSValue) (r : string) :
  Server.message_rejected P fm = Ok false ->
  Server.sanitizeMessage fm = Ok r ->
  r = JS.trim r /\ JS.length r <= 500.
Proof.
  unfold Server.message_rejected, Server.sanitizeMessage.
  destruct (truthy fm) eqn:T.
  - destruct fm as [| | | |m| |]; simpl; try discriminate.
    intros Hr Hs. injection Hs as <-. injection Hr as Hr.
    pose proof (JSFacts.length_trim m).
    rewrite JSFacts.substring_short by lia.
    rewrite JSFacts.trim_idem. split; [reflexivity | lia].
  - intros _ Hs. injection Hs as <-. unfold JS.length. simpl. split; [reflexivity | lia].
Qed.

(** C10: the values the handler derives from an accepted submission are
    fixed points of the sanitizer: put back as a body and sanitized again,
    they come out unchanged.  Both revisions. *)
Theorem sanitizer_idempotent (P : Platform) (req : Request) (s : Sanitized) :
  (Server.validateContactRequest P req = Next ->
   Server.sanitize (body req) = Ok s ->
   Server.sanitize (resubmit s) = Ok s)
  /\ (Part000.validateContactRequest P req = Next ->
      Part000.sanitize (body req) = Ok s ->
      Part000.sanitize (resubmit s) = Ok s).
Proof.
  split; intros Hv Hs.
  - destruct (server_accepts P req Hv) as (n & e & [Hn Hmin Hmax He _] & _ & Hm & _).
    unfold Server.sanitize in Hs. rewrite Hn, He in Hs. cbn [Server.sanitizeName
      Server.sanitizeEmail call_trim bind] in Hs.
    destruct (Server.sanitizeMessage (Server.finalMessage (body req))) as [r|] eqn:Er;
      [|discriminate Hs].
    cbn [bind] in Hs. injection Hs as <-.
    pose proof (JSFacts.length_trim n) as Ln.
    rewrite JSFacts.substring_short by lia.
    destruct (sanitizeMessage_accepted P _ r Hm Er) as [Rt Rl].
    unfold Server.sanitize. rewrite finalMessage_resubmit.
    cbn [resubmit prop assoc String.eqb Ascii.eqb Bool.eqb sanitizedName sanitizedEmail
         sanitizedMessage Server.sanitizeName Server.sanitizeEmail call_trim bind].
    rewrite JSFacts.trim_idem. rewrite JSFacts.substring_short by lia.
    rewrite JSFacts.lower_trim_twice.
    unfold Server.sanitizeMessage. cbn [call_trim bind].
    rewrite <- Rt. rewrite JSFacts.substring_short by lia.
    destruct (truthy (JStr r)) eqn:T; [reflexivity|].
    simpl in T. destruct r; [reflexivity | discriminate T].
  - destruct (sibling_accepts P req Hv) as (n & e & [Hn Hmin Hmax He _] & _ & Hm & _).
    unfold Part000.sanitize in Hs. rewrite Hn, He in Hs. cbn [Part000.sanitizeName
      Part000.sanitizeEmail call_trim call_toLowerCase bind] in Hs.
    destruct (Part000.sanitizeMessage (Part000.finalMessage (body req))) as [r|] eqn:Er;
      [|discriminate Hs].
    cbn [bind] in Hs. injection Hs as <-.
    pose proof (JSFacts.length_trim n) as Ln.
    rewrite JSFacts.substring_short by lia.
    assert (R : r = JS.trim r /\ JS.length r <= 500).
    { unfold Part000.sanitizeMessage in Er.
      destruct (truthy (Part000.finalMessage (body req))) eqn:T.
      - destruct (Part000.finalMessage (body req)) as [| | | |m| |] eqn:Em;
          try discriminate Er.
        cbn [call_trim bind] in Er. injection Er as <-.
        pose proof (Hm m eq_refl). pose proof (JSFacts.length_trim m).
        rewrite JSFacts.substring_short by lia.
        rewrite JSFacts.trim_idem. split; [reflexivity | lia].
      - injection Er as <-. unfold JS.length; simpl; split; [reflexivity | lia]. }
    destruct R as [Rt Rl].
    unfold Part000.sanitize. change Part000.finalMessage with Server.finalMessage.
    rewrite finalMessage_resubmit.
    cbn [resubmit prop assoc String.eqb Ascii.eqb Bool.eqb sanitizedName sanitizedEmail
         sanitizedMessage Part000.sanitizeName Part000.sanitizeEmail call_trim
         call_toLowerCase bind].
    rewrite JSFacts.trim_idem. rewrite JSFacts.substring_short by lia.
    rewrite JSFacts.trim_lower_twice.
    unfold Part000.sanitizeMessage. cbn [call_trim bind].
    rewrite <- Rt. rewrite JSFacts.substring_short by lia.
    destruct (truthy (JStr r)) eqn:T; [reflexivity|].
    simpl in T. destruct r; [reflexivity | discriminate T].
Qed.

(** The bound enforced by the validator matters here: on a name of 101
    units, which the validator refuses, cutting after trimming can leave a
    trailing space that a second pass would remove. *)
Remark truncation_needs_the_bound :
  Server.sanitizeName (JStr (Reference.repeat "a" 99 ++ " b"))
    = Ok (Reference.repeat "a" 99 ++ " ")%string
  /\ Server.sanitizeName (JStr (Reference.repeat "a" 99 ++ " "))
    = Ok (Reference.repeat "a" 99)
  /\ Server.validateContactRequest Reference.platform
       (Reference.post (Reference.named (JStr (Reference.repeat "a" 99 ++ " b"))))
     = error_response 400 "Invalid name".
Proof. repeat split; vm_compute; reflexivity. Qed.

Lemma sanitizer_idempotent_witness :
  Server.sanitize
    (resubmit (mkSanitized "Jo Smith" "jo@example.com" "Please review"))
  = Ok (mkSanitized "Jo Smith" "jo@example.com" "Please review").
Proof.
  apply (proj1 (sanitizer_idempotent Reference.platform
                  (Reference.post
                     (Reference.submission (JStr "  Jo Smith ") (JStr "Jo@Example.COM")
                        (JStr "https://app.example.com") (JStr " Please review  ")))
                  (mkSanitized "Jo Smith" "jo@example.com" "Please review")));
    reflexivity.
Defined.

(** ** The contact limiter *)

Lemma hit_same_key (o : RateLimit.Options) (now : Z) (k : string)
    (store : gmap string RateLimit.Window) :
  fst (RateLimit.hit o now k store) !! k = Some (fst (RateLimit.tick o now (store !! k)))
  /\ snd (RateLimit.hit o now k store) = snd (RateLimit.tick o now (store !! k)).
Proof.
  unfold RateLimit.hit. destruct (RateLimit.tick o now (store !! k)) as [w a].
  simpl. now rewrite lookup_insert_eq.
Qed.

Lemma hit_other_key (o : RateLimit.Options) (now : Z) (k k' : string)
    (store : gmap string RateLimit.Window) :
  k' <> k -> fst (RateLimit.hit o now k' store) !! k = store !! k.
Proof.
  intros H. unfold RateLimit.hit.
  destruct (RateLimit.tick o now (store !! k')) as [w a].
  simpl. now rewrite lookup_insert_ne.
Qed.

(** Keys are isolated: in any run on any store, the outcomes of the
    requests of one key are those of that key on its own. *)
Lemma run_per_key (o : RateLimit.Options) (k : string) (reqs : list (Z * Request)) :
  (forall req, RateLimit.skip o req = false) ->
  forall store : gmap string RateLimit.Window,
  RateLimit.outcomes_for o k reqs (snd (RateLimit.run o reqs store))
  = map (RateLimit.verdict o)
        (RateLimit.key_run o (RateLimit.times_for o k reqs) (store !! k)).
Proof.
  intros Hskip. unfold RateLimit.outcomes_for, RateLimit.times_for.
  induction reqs as [|[now req] rest IH]; intros store; [reflexivity|].
  cbn [RateLimit.run]. unfold RateLimit.middleware. rewrite Hskip.
  pose proof (hit_same_key o now (RateLimit.keyGenerator o req) store) as [Hs Ha].
  pose proof (fun H => hit_other_key o now k (RateLimit.keyGenerator o req) store H) as Ho.
  destruct (RateLimit.hit o now (RateLimit.keyGenerator o req) store) as [store' a].
  specialize (IH store').
  destruct (RateLimit.run o rest store') as [store'' outs].
  cbn [fst snd combine List.filter map] in *.
  destruct (RateLimit.has_key o k req) eqn:Hk; unfold RateLimit.has_key in Hk.
  - apply String.eqb_eq in Hk. cbn [map RateLimit.key_run fst snd].
    rewrite Hk in *. rewrite Hs in IH.
    destruct (RateLimit.tick o now (store !! k)) as [w' a'].
    cbn [fst snd map] in *. now rewrite IH, Ha.
  - apply String.eqb_neq in Hk. now rewrite IH, (Ho Hk).
Qed.

(** Three requests inside the window opened by the first pass, the fourth
    is refused, and one at or after the end of the window passes again. *)
Lemma key_run_window (o : RateLimit.Options) (entry : option RateLimit.Window)
    (t1 t2 t3 t4 t5 : Z) :
  RateLimit.max o = 3 ->
  RateLimit.no_open_window o t1 entry ->
  t1 <= t2 < t1 + RateLimit.windowMs o ->
  t1 <= t3 < t1 + RateLimit.windowMs o ->
  t1 <= t4 < t1 + RateLimit.windowMs o ->
  t1 + RateLimit.windowMs o <= t5 ->
  RateLimit.key_run o [t1; t2; t3; t4; t5] entry = [true; true; true; false; true].
Proof.
  intros Hmax Hfresh H2 H3 H4 H5.
  assert (E1 : RateLimit.tick o t1 entry = (RateLimit.mkWindow t1 1, true)).
  { unfold RateLimit.tick. rewrite Hmax.
    destruct entry as [w|]; [simpl in Hfresh; rewrite Hfresh|]; reflexivity. }
  assert (In_w : forall t c, t1 <= t < t1 + RateLimit.windowMs o ->
            RateLimit.tick o t (Some (RateLimit.mkWindow t1 c))
            = (RateLimit.mkWindow t1 (c + 1), c + 1 <=? 3)).
  { intros t c Ht. unfold RateLimit.tick, RateLimit.inside. rewrite Hmax.
    cbn [RateLimit.start RateLimit.count].
    replace (t1 <=? t) with true by lia.
    replace (t <? t1 + RateLimit.windowMs o) with true by lia. reflexivity. }
  assert (Out_w : forall c, RateLimit.tick o t5 (Some (RateLimit.mkWindow t1 c))
            = (RateLimit.mkWindow t5 1, true)).
  { intros c. unfold RateLimit.tick, RateLimit.inside. rewrite Hmax.
    cbn [RateLimit.start RateLimit.count].
    replace (t5 <? t1 + RateLimit.windowMs o) with false by lia.
    rewrite andb_false_r. reflexivity. }
  cbn [RateLimit.key_run].
  rewrite E1, (In_w t2 1 H2), (In_w t3 (1 + 1) H3), (In_w t4 (1 + 1 + 1) H4), Out_w.
  reflexivity.
Qed.

(** C6: under the contact limiter (window 3 600 000 ms, maximum 3), for
    every key and every run of requests on any store in which the key has
    no open window: if the key's requests come at [t1], then at three
    times inside the hour that [t1] opens, then at a time after that hour,
    the first three are passed on, the fourth is answered 429 with the
    limiter's message, and the fifth is passed on again, whatever other
    keys do in between.  Both revisions. *)
Theorem contact_limiter_window (o : RateLimit.Options) (k : string)
    (store : gmap string RateLimit.Window) (reqs : list (Z * Request))
    (t1 t2 t3 t4 t5 : Z) :
  o = Server.contactLimiter \/ o = Part000.contactLimiter ->
  RateLimit.no_open_window o t1 (store !! k) ->
  RateLimit.times_for o k reqs = [t1; t2; t3; t4; t5] ->
  t1 <= t2 < t1 + 60 * 60 * 1000 ->
  t1 <= t3 < t1 + 60 * 60 * 1000 ->
  t1 <= t4 < t1 + 60 * 60 * 1000 ->
  t1 + 60 * 60 * 1000 <= t5 ->
  RateLimit.outcomes_for o k reqs (snd (RateLimit.run o reqs store))
  = [Next; Next; Next;
     Respond (mkResponse 429 (Text (RateLimit.message o)));
     Next].
Proof.
  intros Ho Hfresh Ht H2 H3 H4 H5.
  assert (Hskip : forall req, RateLimit.skip o req = false)
    by (destruct Ho as [-> | ->]; reflexivity).
  assert (Hmax : RateLimit.max o = 3) by (destruct Ho as [-> | ->]; reflexivity).
  assert (Hw : RateLimit.windowMs o = 60 * 60 * 1000)
    by (destruct Ho as [-> | ->]; reflexivity).
  rewrite (run_per_key o k reqs Hskip store), Ht.
  rewrite (key_run_window o (store !! k) t1 t2 t3 t4 t5); rewrite ?Hw; auto.
Qed.

Lemma contact_limiter_window_witness :
  RateLimit.outcomes_for Server.contactLimiter "203.0.113.7"
    [ (0, Reference.post Reference.jo);
      (1000, Reference.post Reference.jo);
      (1500, Reference.post_from "198.51.100.9" Reference.jo);
      (2000, Reference.post Reference.jo);
      (3599999, Reference.post Reference.jo);
      (3600000, Reference.post Reference.jo) ]
    (snd (RateLimit.run Server.contactLimiter
       [ (0, Reference.post Reference.jo);
         (1000, Reference.post Reference.jo);
         (1500, Reference.post_from "198.51.100.9" Reference.jo);
         (2000, Reference.post Reference.jo);
         (3599999, Reference.post Reference.jo);
         (3600000, Reference.post Reference.jo) ] ∅))
  = [Next; Next; Next;
     Respond (mkResponse 429 (Text "Too many contact requests, try again in 1 hour"));
     Next].
Proof.
  apply (contact_limiter_window Server.contactLimiter "203.0.113.7" ∅ _
           0 1000 2000 3599999 3600000);
    [now left | exact I | reflexivity | lia | lia | lia | lia].
Defined.

(** ** The matcher against the meaning of patterns *)

Module RegexFacts.
Import Regex.

Lemma append_empty (s1 s2 : string) :
  (s1 ++ s2)%string = EmptyString -> s1 = EmptyString /\ s2 = EmptyString.
Proof. destruct s1; simpl; [auto | discriminate]. Qed.

Lemma append_cons (s1 s2 : string) (c : ascii) (s : string) :
  (s1 ++ s2)%string = String c s ->
  (s1 = EmptyString /\ s2 = String c s)
  \/ exists s1', s1 = String c s1' /\ s = (s1' ++ s2)%string.
Proof.
  destruct s1 as [|d s1']; simpl; intros H; [now left|].
  injection H as -> <-. right. now exists s1'.
Qed.

Lemma seq_inv (r1 r2 : regex) (s : string) :
  Matches (Seq r1 r2) s ->
  exists s1 s2, s = (s1 ++ s2)%string /\ Matches r1 s1 /\ Matches r2 s2.
Proof. inversion 1; subst; eauto. Qed.

Lemma alt_inv (r1 r2 : regex) (s : string) :
  Matches (Alt r1 r2) s -> Matches r1 s \/ Matches r2 s.
Proof. inversion 1; subst; auto. Qed.

Lemma class_inv (p : ascii -> bool) (s : string) :
  Matches (Class p) s -> exists c, s = String c EmptyString /\ p c = true.
Proof. inversion 1; subst; eauto. Qed.

Lemma nullable_spec (r : regex) : nullable r = true <-> Matches r EmptyString.
Proof.
  induction r as [| |p|r1 IH1 r2 IH2|r1 IH1 r2 IH2|r IH]; simpl.
  - split; [discriminate | inversion 1].
  - split; [constructor | reflexivity].
  - split; [discriminate | inversion 1].
  - rewrite andb_true_iff, IH1, IH2. split.
    + intros [H1 H2]. exact (MSeq _ _ _ _ H1 H2).
    + intros H. apply seq_inv in H as (s1 & s2 & E & H1 & H2).
      symmetry in E. apply append_empty in E as [-> ->]. now split.
  - rewrite orb_true_iff, IH1, IH2. split.
    + intros [H | H]; [now apply MAltL | now apply MAltR].
    + apply alt_inv.
  - split; [constructor | reflexivity].
Qed.

(** A non-empty match of a star starts with a non-empty match of its body. *)
Lemma star_cons (r : regex) (c : ascii) (s : string) :
  Matches (Star r) (String c s) ->
  exists s1 s2, s = (s1 ++ s2)%string /\ Matches r (String c s1) /\ Matches (Star r) s2.
Proof.
  intros H. remember (Star r) as r' eqn:Er. remember (String c s) as w eqn:Ew.
  revert s Ew.
  induction H as [| | | | | |r0 s1 s2 H1 _ H2 IH2]; intros t Ew; try discriminate.
  injection Er as ->.
  destruct (append_cons _ _ _ _ Ew) as [[-> ->] | (s1' & -> & ->)].
  - now apply IH2.
  - now exists s1', s2.
Qed.

Lemma deriv_spec (r : regex) (c : ascii) (s : string) :
  Matches (deriv c r) s <-> Matches r (String c s).
Proof.
  revert s. induction r as [| |p|r1 IH1 r2 IH2|r1 IH1 r2 IH2|r IH]; intros s; simpl.
  - split; inversion 1.
  - split; inversion 1.
  - destruct (p c) eqn:E; split.
    + inversion 1; subst. now constructor.
    + intros H. apply class_inv in H as (d & Hd & _). injection Hd as _ ->. constructor.
    + inversion 1.
    + intros H. apply class_inv in H as (d & Hd & Hp). injection Hd as -> _. congruence.
  - assert (Hseq : Matches (Seq (deriv c r1) r2) s ->
                   Matches (Seq r1 r2) (String c s)).
    { intros H. apply seq_inv in H as (s1 & s2 & -> & H1 & H2).
      change (String c (s1 ++ s2)) with (String c s1 ++ s2)%string.
      apply MSeq; [now apply IH1 | exact H2]. }
    assert (Hinv : Matches (Seq r1 r2) (String c s) ->
                   Matches (Seq (deriv c r1) r2) s
                   \/ (Matches r1 EmptyString /\ Matches (deriv c r2) s)).
    { intros H. apply seq_inv in H as (s1 & s2 & E & H1 & H2). symmetry in E.
      destruct (append_cons _ _ _ _ E) as [[-> ->] | (s1' & -> & ->)].
      - right. split; [exact H1 | now apply IH2].
      - left. apply MSeq; [now apply IH1 | exact H2]. }
    destruct (nullable r1) eqn:N; split.
    + intros H. apply alt_inv in H as [H | H]; [now apply Hseq|].
      change (String c s) with (EmptyString ++ String c s)%string.
      apply MSeq; [now apply nullable_spec | now apply IH2].
    + intros H. destruct (Hinv H) as [H' | [_ H']]; [now apply MAltL | now apply MAltR].
    + exact Hseq.
    + intros H. destruct (Hinv H) as [H' | [H' _]]; [exact H'|].
      apply nullable_spec in H'. congruence.
  - split; intros H; apply alt_inv in H as [H | H];
      (apply MAltL; now apply IH1) || (apply MAltR; now apply IH2).
  - split.
    + intros H. apply seq_inv in H as (s1 & s2 & -> & H1 & H2).
      change (String c (s1 ++ s2)) with (String c s1 ++ s2)%string.
      apply MStarCons; [now apply IH | exact H2].
    + intros H. destruct (star_cons _ _ _ H) as (s1 & s2 & -> & H1 & H2).
      apply MSeq; [now apply IH | exact H2].
Qed.

(** [accepts] decides [Matches]. *)
Lemma accepts_spec (r : regex) (s : string) : accepts r s = true <-> Matches r s.
Proof.
  revert r. induction s as [|c s IH]; intros r; simpl.
  - apply nullable_spec.
  - rewrite IH. apply deriv_spec.
Qed.

Lemma matches_lit (p s : string) : Matches (lit p) s <-> s = p.
Proof.
  revert s. induction p as [|c p IH]; intros s; simpl.
  - split; [now inversion 1 | intros ->; constructor].
  - split.
    + intros H. apply seq_inv in H as (s1 & s2 & -> & H1 & H2).
      apply class_inv in H1 as (d & -> & Hd).
      apply Ascii.eqb_eq in Hd. subst. simpl. f_equal. now apply IH.
    + intros ->. change (String c p) with (String c EmptyString ++ p)%string.
      apply MSeq; [constructor; apply Ascii.eqb_refl | now apply IH].
Qed.

Lemma matches_star_any (s : string) : Matches (Star any) s.
Proof.
  induction s as [|c s IH]; [constructor|].
  change (String c s) with (String c EmptyString ++ s)%string.
  apply MStarCons; [now constructor | exact IH].
Qed.

(** [/^r/] matches exactly the strings with a prefix that [r] matches. *)
Lemma test_from_start (r : regex) (s : string) :
  test (FromStart r) s = true <-> exists p rest, s = (p ++ rest)%string /\ Matches r p.
Proof.
  simpl. rewrite accepts_spec. split.
  - intros H. apply seq_inv in H as (p & rest & -> & H & _). eauto.
  - intros (p & rest & -> & H). apply MSeq; [exact H | apply matches_star_any].
Qed.

Lemma test_whole (r : regex) (s : string) :
  test (Whole r) s = true <-> Matches r s.
Proof. apply accepts_spec. Qed.

End RegexFacts.

(** ** The private-host patterns against the specification's list *)

Lemma matches_lit_i (p s : string) :
  Regex.Matches (Regex.lit_i p) s <-> JS.toLowerCase s = JS.toLowerCase p.
Proof.
  revert s. induction p as [|c p IH]; intros s; simpl.
  - split.
    + now inversion 1.
    + destruct s; [constructor | discriminate].
  - split.
    + intros H. apply RegexFacts.seq_inv in H as (s1 & s2 & -> & H1 & H2).
      apply RegexFacts.class_inv in H1 as (d & -> & Hd).
      apply Ascii.eqb_eq in Hd. simpl. rewrite Hd. f_equal. now apply IH.
    + destruct s as [|d s]; [discriminate|]. simpl. intros H. injection H as Hd Hs.
      change (String d s) with (String d EmptyString ++ s)%string.
      apply Regex.MSeq; [constructor; now apply Ascii.eqb_eq | now apply IH].
Qed.

(** [(1[6-9]|2[0-9]|3[01])] matches the sixteen second octets 16..31. *)
Lemma matches_second_octet (s : string) :
  Regex.Matches
    (Regex.Alt (Regex.Seq (Regex.chr "1") (Regex.range "6" "9"))
       (Regex.Alt (Regex.Seq (Regex.chr "2") (Regex.range "0" "9"))
          (Regex.Seq (Regex.chr "3") (Regex.one_of ["0"; "1"]%char)))) s
  <-> In s second_octets.
Proof.
  split.
  - intros H.
    apply RegexFacts.alt_inv in H as [H | H];
      [|apply RegexFacts.alt_inv in H as [H | H]];
      apply RegexFacts.seq_inv in H as (s1 & s2 & -> & H1 & H2);
      apply RegexFacts.class_inv in H1 as (d1 & -> & Hd1);
      apply RegexFacts.class_inv in H2 as (d2 & -> & Hd2);
      apply Ascii.eqb_eq in Hd1; subst d1;
      destruct d2 as [[] [] [] [] [] [] [] []];
      vm_compute in Hd2; try discriminate Hd2;
      simpl; tauto.
  - simpl. intros H.
    repeat (destruct H as [<- | H]; [apply RegexFacts.accepts_spec; reflexivity|]).
    contradiction.
Qed.

(** The six patterns of [privateHosts] match exactly the excluded hosts. *)
Lemma privateHosts_spec (h : string) :
  existsb (fun r => Regex.test r h) Server.privateHosts = true <-> private_host h.
Proof.
  unfold Server.privateHosts, private_host. cbn [existsb].
  rewrite !orb_true_iff, !RegexFacts.test_whole, !RegexFacts.test_from_start.
  rewrite matches_lit_i, RegexFacts.matches_lit.
  change (JS.toLowerCase "localhost") with "localhost".
  assert (Lit : forall p, (exists q rest, h = (q ++ rest)%string
                           /\ Regex.Matches (Regex.lit p) q) <-> starts_with p h).
  { intros p. split.
    - intros (q & rest & -> & Hq). apply RegexFacts.matches_lit in Hq. subst.
      now exists rest.
    - intros (rest & ->). exists p, rest. split; [reflexivity|].
      now apply RegexFacts.matches_lit. }
  rewrite !Lit.
  assert (Oct : (exists q rest, h = (q ++ rest)%string /\ Regex.Matches
                   (Regex.Seq (Regex.lit "172.")
                      (Regex.Seq
                         (Regex.Alt (Regex.Seq (Regex.chr "1") (Regex.range "6" "9"))
                            (Regex.Alt (Regex.Seq (Regex.chr "2") (Regex.range "0" "9"))
                               (Regex.Seq (Regex.chr "3") (Regex.one_of ["0"; "1"]%char))))
                         (Regex.chr "."))) q)
                <-> exists o, In o second_octets /\ starts_with ("172." ++ o ++ ".") h).
  { split.
    - intros (q & rest & -> & Hq).
      apply RegexFacts.seq_inv in Hq as (q1 & q2 & -> & H1 & H2).
      apply RegexFacts.matches_lit in H1. subst q1.
      apply RegexFacts.seq_inv in H2 as (o & dot & -> & Ho & Hd).
      apply matches_second_octet in Ho.
      apply RegexFacts.class_inv in Hd as (d & -> & Hd). apply Ascii.eqb_eq in Hd. subst d.
      exists o. split; [exact Ho|]. now exists rest.
    - intros (o & Ho & rest & ->).
      exists ("172." ++ o ++ ".")%string, rest. split; [reflexivity|].
      apply Regex.MSeq; [now apply RegexFacts.matches_lit|].
      apply Regex.MSeq; [now apply matches_second_octet|].
      constructor. apply Ascii.eqb_refl. }
  rewrite Oct. intuition discriminate.
Qed.

(** [isValidUrl] of [server.js] accepts exactly the values that parse as a
    URL with scheme http or https and a host outside the excluded list. *)
Theorem isValidUrl_spec (P : Platform) (url : JSValue) :
  Server.isValidUrl P url = true
  <-> exists u, URL_new P url = Some u
                /\ (protocol u = "http:" \/ protocol u = "https:")
                /\ ~ private_host (hostname u).
Proof.
  unfold Server.isValidUrl. destruct (URL_new P url) as [u|].
  - destruct (JS.includes ["http:"; "https:"] (protocol u)) eqn:I; cbn [negb].
    + apply includes_In in I. rewrite negb_true_iff, <- not_true_iff_false, privateHosts_spec.
      split.
      * intros H. exists u. simpl in I. intuition.
      * intros (u' & E & _ & H). now injection E as <-.
    + split; [discriminate|]. intros (u' & E & Hp & _). injection E as <-.
      assert (In (protocol u) ["http:"; "https:"]) by (simpl; intuition).
      apply includes_In in H. congruence.
  - split; [discriminate|]. now intros (u & E & _).
Qed.

(** ** The email pattern *)

Lemma all_chars_app (p : ascii -> bool) (a b : string) :
  Reference.all_chars p (a ++ b) = Reference.all_chars p a && Reference.all_chars p b.
Proof. induction a as [|c a IH]; simpl; [reflexivity|]. now rewrite IH, andb_assoc. Qed.

Lemma all_chars_weaken (p q : ascii -> bool) (s : string) :
  (forall c, p c = true -> q c = true) ->
  Reference.all_chars p s = true -> Reference.all_chars q s = true.
Proof.
  intros H. induction s as [|c s IH]; simpl; [reflexivity|].
  rewrite !andb_true_iff. intros [Hc Hs]. auto.
Qed.

(** [Class p *] matches the strings made of characters in the class. *)
Lemma matches_star_class (p : ascii -> bool) (s : string) :
  Regex.Matches (Regex.Star (Regex.Class p)) s <-> Reference.all_chars p s = true.
Proof.
  split.
  - intros H. remember (Regex.Star (Regex.Class p)) as r eqn:Er.
    induction H as [| | | | | |r0 s1 s2 H1 _ H2 IH2]; try discriminate; [reflexivity|].
    injection Er as ->. apply RegexFacts.class_inv in H1 as (c & -> & Hc).
    simpl. rewrite Hc. now apply IH2.
  - induction s as [|c s IH]; simpl; [constructor|].
    rewrite andb_true_iff. intros [Hc Hs].
    change (String c s) with (String c EmptyString ++ s)%string.
    apply Regex.MStarCons; [now constructor | now apply IH].
Qed.

Lemma matches_plus_class (p : ascii -> bool) (s : string) :
  Regex.Matches (Regex.plus (Regex.Class p)) s
  <-> s <> EmptyString /\ Reference.all_chars p s = true.
Proof.
  unfold Regex.plus. split.
  - intros H. apply RegexFacts.seq_inv in H as (s1 & s2 & -> & H1 & H2).
    apply RegexFacts.class_inv in H1 as (c & -> & Hc).
    apply matches_star_class in H2. split; [discriminate|].
    simpl. rewrite Hc. exact H2.
  - destruct s as [|c s]; [now intros [[] _]|]. simpl. rewrite andb_true_iff.
    intros [_ [Hc Hs]].
    change (String c s) with (String c EmptyString ++ s)%string.
    apply Regex.MSeq; [now constructor | now apply matches_star_class].
Qed.

(** [/^[^\s@]+@[^\s@]+\.[^\s@]+$/] matches exactly the strings of the shape
    [local@domain.tld]. *)
Lemma emailRegex_shape (s : string) :
  Regex.test Server.emailRegex s = true <-> email_shape s.
Proof.
  unfold Server.emailRegex. rewrite RegexFacts.test_whole. unfold email_shape, plain.
  change Server.not_space_at with (Regex.Class plain_char). split.
  - intros H.
    apply RegexFacts.seq_inv in H as (l & r1 & -> & Hl & H).
    apply RegexFacts.seq_inv in H as (a & r2 & -> & Ha & H).
    apply RegexFacts.seq_inv in H as (d & r3 & -> & Hd & H).
    apply RegexFacts.seq_inv in H as (o & t & -> & Ho & Ht).
    apply RegexFacts.class_inv in Ha as (c & -> & Hc). apply Ascii.eqb_eq in Hc. subst c.
    apply RegexFacts.class_inv in Ho as (c & -> & Hc). apply Ascii.eqb_eq in Hc. subst c.
    apply matches_plus_class in Hl, Hd, Ht. now exists l, d, t.
  - intros (l & d & t & -> & Hl & Hd & Ht).
    apply Regex.MSeq; [now apply matches_plus_class|].
    apply (Regex.MSeq _ _ "@"); [constructor; reflexivity|].
    apply Regex.MSeq; [now apply matches_plus_class|].
    apply (Regex.MSeq _ _ "."); [constructor; reflexivity|].
    now apply matches_plus_class.
Qed.

(** [isValidEmail] accepts exactly the strings of the shape
    [local@domain.tld] (each part non-empty, without white space and
    without [@]) that are at most 254 units long; a value that is not a
    string is refused.  The two revisions have the same function. *)
Theorem isValidEmail_spec (v : JSValue) :
  (Server.isValidEmail v = true
   <-> exists s, v = JStr s /\ email_shape s /\ JS.length s <= 254)
  /\ Part000.isValidEmail v = Server.isValidEmail v.
Proof.
  split; [|reflexivity].
  destruct v as [| | | |s| |]; cbn [Server.isValidEmail];
    try (split; [discriminate | now intros (s' & E & _)]).
  rewrite andb_true_iff, emailRegex_shape, Z.leb_le. split.
  - intros [H L]. now exists s.
  - intros (s' & E & H & L). now injection E as <-.
Qed.

(** An accepted email has no white space in it, so no line break either. *)
Lemma email_shape_no_space (s : string) : email_shape s -> no_space s.
Proof.
  intros (l & d & t & -> & [_ Hl] & [_ Hd] & [_ Ht]). unfold no_space.
  assert (W : forall x, Reference.all_chars plain_char x = true ->
              Reference.all_chars (fun c => negb (JS.ws_char c)) x = true).
  { intros x. apply all_chars_weaken. intros c. unfold plain_char.
    rewrite !negb_true_iff, orb_false_iff. tauto. }
  rewrite !all_chars_app, (W l Hl), (W d Hd), (W t Ht). reflexivity.
Qed.

(** ** What the validators accept *)

Lemma finalMessage_or_empty (v : JSValue) :
  Server.finalMessage (js_or v (JObj [])) = Server.finalMessage v.
Proof. unfold Server.finalMessage. now rewrite !prop_or_empty. Qed.

Lemma message_rejected_string (P : Platform) (m : string) :
  Server.message_rejected P (JStr m) = Ok (JS.length m >? 500).
Proof.
  unfold Server.message_rejected. destruct (truthy (JStr m)) eqn:T; [reflexivity|].
  simpl in T. destruct m; [reflexivity | discriminate T].
Qed.

Lemma name_in_bounds_truthy (n : string) :
  2 <= JS.length (JS.trim n) -> truthy (JStr n) = true.
Proof.
  intros H. destruct n; [|reflexivity]. unfold JS.length in H. simpl in H. lia.
Qed.

Lemma server_next_iff (P : Platform) (req : Request) :
  Server.validateContactRequest P req = Next
  <-> name_in_bounds (prop "name" (body req))
      /\ Server.isValidEmail (prop "email" (body req)) = true
      /\ Server.isValidUrl P (prop "url" (body req)) = true
      /\ Server.message_rejected P (Server.finalMessage (body req)) = Ok false.
Proof.
  unfold Server.validateContactRequest, Server.validate, Server.name_rejected, name_in_bounds.
  rewrite !prop_or_empty, finalMessage_or_empty. split.
  - intros H.
    destruct (prop "name" (body req)) as [| |[]|k|n|l|fs] eqn:En;
      cbn [truthy negb bind call_trim] in H; try discriminate H.
    + revert H. destruct (k =? 0); cbn [negb bind]; discriminate.
    + destruct n as [|c n]; cbn [String.eqb negb bind] in H; [discriminate H|].
      destruct (JS.length (JS.trim (String c n)) <? 2) eqn:L2; [discriminate H|].
      cbn [bind get_length js_gt] in H.
      destruct (JS.length (String c n) >? 100) eqn:L100; [discriminate H|].
      destruct (Server.isValidEmail (prop "email" (body req))); [|discriminate H].
      destruct (Server.isValidUrl P (prop "url" (body req))); [|discriminate H].
      cbn [negb] in H.
      destruct (Server.message_rejected P (Server.finalMessage (body req))) as [[]|];
        try discriminate H.
      repeat split; trivial. exists (String c n). repeat split; trivial; lia.
  - intros ((n & -> & Hmin & Hmax) & -> & -> & ->).
    rewrite (name_in_bounds_truthy n Hmin).
    cbn [negb call_trim get_length js_gt bind].
    replace (JS.length (JS.trim n) <? 2) with false by lia.
    replace (JS.length n >? 100) with false by lia. reflexivity.
Qed.

Lemma sibling_next_iff (P : Platform) (req : Request) :
  Part000.validateContactRequest P req = Next
  <-> name_in_bounds (prop "name" (body req))
      /\ Part000.isValidEmail (prop "email" (body req)) = true
      /\ Part000.isValidUrl P (prop "url" (body req)) = true
      /\ (forall m, Part000.finalMessage (body req) = JStr m -> JS.length m <= 500).
Proof.
  unfold Part000.validateContactRequest, name_in_bounds.
  change Part000.finalMessage with Server.finalMessage.
  rewrite !prop_or_empty, finalMessage_or_empty. split.
  - intros H.
    destruct (prop "name" (body req)) as [| | | |n| |] eqn:En; try discriminate H.
    destruct (truthy (JStr n)) eqn:T; [|discriminate H]. cbn [negb orb] in H.
    destruct (JS.length (JS.trim n) <? 2) eqn:L2; [discriminate H|].
    destruct (JS.length n >? 100) eqn:L100; [discriminate H|].
    destruct (Part000.isValidEmail (prop "email" (body req))); [|discriminate H].
    destruct (Part000.isValidUrl P (prop "url" (body req))); [|discriminate H].
    cbn [negb] in H.
    repeat split; trivial; [exists n; repeat split; trivial; lia|].
    intros m Hm. rewrite Hm in H.
    destruct (truthy (JStr m)) eqn:Tm; cbn [andb] in H.
    + destruct (JS.length m >? 500) eqn:L; [discriminate H | lia].
    + simpl in Tm. destruct m; [unfold JS.length; simpl; lia | discriminate Tm].
  - intros ((n & -> & Hmin & Hmax) & -> & -> & Hm).
    rewrite (name_in_bounds_truthy n Hmin). cbn [negb orb].
    replace (JS.length (JS.trim n) <? 2) with false by lia.
    replace (JS.length n >? 100) with false by lia.
    destruct (Server.finalMessage (body req)) as [| | | |m| |]; try reflexivity.
    specialize (Hm m eq_refl).
    replace (JS.length m >? 500) with false by lia. now rewrite andb_false_r.
Qed.

(** Both validators call [next()] exactly when the four field conditions
    hold: the name is a string with trimmed length at least 2 and raw
    length at most 100, [isValidEmail] and [isValidUrl] accept, and the
    message, here a string, has at most 500 units (500 passes, 501 does
    not). *)
Theorem validators_accept_exactly (P : Platform) (req : Request) (m : string) :
  Server.finalMessage (body req) = JStr m ->
  (Server.validateContactRequest P req = Next
   <-> name_in_bounds (prop "name" (body req))
       /\ Server.isValidEmail (prop "email" (body req)) = true
       /\ Server.isValidUrl P (prop "url" (body req)) = true
       /\ JS.length m <= 500)
  /\ (Part000.validateContactRequest P req = Next
      <-> name_in_bounds (prop "name" (body req))
          /\ Part000.isValidEmail (prop "email" (body req)) = true
          /\ Part000.isValidUrl P (prop "url" (body req)) = true
          /\ JS.length m <= 500).
Proof.
  intros Hm. split.
  - rewrite server_next_iff, Hm, message_rejected_string.
    assert (E : Ok (JS.length m >? 500) = Ok false <-> JS.length m <= 500).
    { split; [intros H; injection H as H; lia | intros H; f_equal; lia]. }
    now rewrite E.
  - rewrite sibling_next_iff. change Part000.finalMessage with Server.finalMessage.
    rewrite Hm. split.
    + intros (Hn & He & Hu & H). repeat split; trivial. now apply H.
    + intros (Hn & He & Hu & H). repeat split; trivial.
      intros m' E. now injection E as <-.
Qed.

Lemma validators_accept_exactly_witness :
  Server.validateContactRequest Reference.platform (Reference.post Reference.jo) = Next
  <-> name_in_bounds (prop "name" (body (Reference.post Reference.jo)))
      /\ Server.isValidEmail (prop "email" (body (Reference.post Reference.jo))) = true
      /\ Server.isValidUrl Reference.platform
           (prop "url" (body (Reference.post Reference.jo))) = true
      /\ JS.length "Please review" <= 500.
Proof.
  apply (validators_accept_exactly Reference.platform (Reference.post Reference.jo)
           "Please review").
  reflexivity.
Defined.

(** The patterns of the sibling revision match only hosts that those of
    [server.js] match as well. *)
Lemma sibling_patterns_included (h : string) :
  existsb (fun r => Regex.test r h) Part000.privatePatterns = true ->
  existsb (fun r => Regex.test r h) Server.privateHosts = true.
Proof.
  unfold Part000.privatePatterns, Server.privateHosts. cbn [existsb].
  rewrite !orb_true_iff.
  intros [H | [H | [H | [H | [H | [H | H]]]]]]; try tauto.
  apply RegexFacts.test_whole, RegexFacts.matches_lit in H. subst h.
  right. left. reflexivity.
Qed.

(** [server.js] is at least as strict as its sibling: a request that its
    validator passes on is passed on by the sibling's validator too. *)
Theorem server_stricter_than_sibling (P : Platform) (req : Request) :
  Server.validateContactRequest P req = Next ->
  Part000.validateContactRequest P req = Next.
Proof.
  rewrite server_next_iff, sibling_next_iff.
  intros (Hn & He & Hu & Hm). repeat split; trivial.
  - unfold Server.isValidUrl in Hu. unfold Part000.isValidUrl.
    destruct (URL_new P (prop "url" (body req))) as [u|]; [|discriminate Hu].
    destruct (negb (JS.includes ["http:"; "https:"] (protocol u))); [discriminate Hu|].
    destruct (existsb _ Part000.privatePatterns) eqn:E; [|reflexivity].
    apply sibling_patterns_included in E. now rewrite E in Hu.
  - intros m Em. change Part000.finalMessage with Server.finalMessage in Em.
    rewrite Em, message_rejected_string in Hm. injection Hm as Hm. lia.
Qed.

Lemma server_stricter_than_sibling_witness :
  Part000.validateContactRequest Reference.platform (Reference.post Reference.jo) = Next.
Proof.
  apply (server_stricter_than_sibling Reference.platform (Reference.post Reference.jo)).
  reflexivity.
Defined.

(** ** The client address *)

Lemma before_comma_split (first rest : string) :
  no_comma first -> JS.before_comma (first ++ "," ++ rest) = first.
Proof.
  unfold no_comma. induction first as [|c f IH]; simpl; [reflexivity|].
  rewrite andb_true_iff, negb_true_iff. intros [-> H]. now rewrite IH.
Qed.

Lemma before_comma_whole (s : string) : no_comma s -> JS.before_comma s = s.
Proof.
  unfold no_comma. induction s as [|c s IH]; simpl; [reflexivity|].
  rewrite andb_true_iff, negb_true_iff. intros [-> H]. now rewrite IH.
Qed.

Lemma before_comma_no_comma (s : string) : no_comma (JS.before_comma s).
Proof.
  unfold no_comma. induction s as [|c s IH]; simpl; [reflexivity|].
  destruct (Ascii.eqb c ",") eqn:E; simpl; [reflexivity|]. now rewrite E, IH.
Qed.

Lemma all_chars_trimStart (p : ascii -> bool) (s : string) :
  Reference.all_chars p s = true -> Reference.all_chars p (JS.trimStart s) = true.
Proof.
  induction s as [|c s IH]; simpl; [reflexivity|].
  rewrite andb_true_iff. intros [Hc Hs].
  destruct (JS.ws_char c); [now apply IH | simpl; now rewrite Hc, Hs].
Qed.

Lemma all_chars_trimEnd (p : ascii -> bool) (s : string) :
  Reference.all_chars p s = true -> Reference.all_chars p (JS.trimEnd s) = true.
Proof.
  induction s as [|c s IH]; simpl; [reflexivity|].
  rewrite andb_true_iff. intros [Hc Hs]. specialize (IH Hs).
  destruct (JS.trimEnd s) as [|d r].
  - destruct (JS.ws_char c); simpl; [reflexivity | now rewrite Hc].
  - cbn [Reference.all_chars] in *. now rewrite Hc, IH.
Qed.

Lemma all_chars_trim (p : ascii -> bool) (s : string) :
  Reference.all_chars p s = true -> Reference.all_chars p (JS.trim s) = true.
Proof. intros H. unfold JS.trim. now apply all_chars_trimEnd, all_chars_trimStart. Qed.

(** [getClientIp]: without a forwarded header, or with an empty one, the
    client address is [req.ip]; otherwise it is the text before the first
    comma of the header, trimmed, so the rest of the list has no influence.
    The result of the header branch holds no comma and is trimmed. *)
Theorem getClientIp_first_entry (req : Request) :
  (x_forwarded_for req = None \/ x_forwarded_for req = Some EmptyString ->
   Server.getClientIp req = ip req)
  /\ (forall first rest,
        no_comma first ->
        x_forwarded_for req = Some (first ++ "," ++ rest)%string ->
        Server.getClientIp req = JS.trim first)
  /\ (forall xff,
        xff <> EmptyString -> no_comma xff ->
        x_forwarded_for req = Some xff ->
        Server.getClientIp req = JS.trim xff)
  /\ (forall xff,
        xff <> EmptyString ->
        x_forwarded_for req = Some xff ->
        no_comma (Server.getClientIp req)
        /\ JS.trim (Server.getClientIp req) = Server.getClientIp req).
Proof.
  unfold Server.getClientIp. split; [|split; [|split]].
  - intros [-> | ->]; reflexivity.
  - intros first rest Hf ->.
    destruct first as [|c first]; [reflexivity|]. cbn [append String.eqb negb].
    now rewrite (before_comma_split (String c first) rest Hf).
  - intros xff Hne Hc ->. destruct xff as [|c xff]; [congruence|].
    cbn [String.eqb negb]. now rewrite before_comma_whole.
  - intros xff Hne ->. destruct xff as [|c xff]; [congruence|].
    cbn [String.eqb negb]. split.
    + apply all_chars_trim, before_comma_no_comma.
    + apply JSFacts.trim_idem.
Qed.

Lemma getClientIp_first_entry_witness :
  Server.getClientIp
    {| method := "POST"; path := "/contact"; origin := None;
       x_forwarded_for := Some " 203.0.113.7 , 10.0.0.1, 10.0.0.2"; user_agent := None;
       ip := "10.0.0.2"; body := JUndefined |}
  = JS.trim " 203.0.113.7 ".
Proof.
  apply (getClientIp_first_entry
           {| method := "POST"; path := "/contact"; origin := None;
              x_forwarded_for := Some " 203.0.113.7 , 10.0.0.1, 10.0.0.2";
              user_agent := None; ip := "10.0.0.2"; body := JUndefined |})
    with (rest := " 10.0.0.1, 10.0.0.2"); reflexivity.
Defined.

(** ** The mail stage *)

(** The trace of the [try] block has one of two shapes, and the answer is
    200 exactly when both calls on the relay succeeded. *)
Lemma deliver_cases (relay : Relay) (t : Transport) (m : OutboundMessage) :
  (exists e, verify relay t = Throw e
     /\ Server.deliver relay t m
        = (error_response 503 "Unable to send message", [CreateTransport t; Verify t]))
  \/ (exists e, verify relay t = Ok tt /\ sendMail relay t m = Throw e
     /\ Server.deliver relay t m
        = (error_response 503 "Unable to send message",
           [CreateTransport t; Verify t; SendMail t m]))
  \/ (exists id, verify relay t = Ok tt /\ sendMail relay t m = Ok id
     /\ Server.deliver relay t m
        = (json 200 [("success", JBool true)],
           [CreateTransport t; Verify t; SendMail t m])).
Proof.
  unfold Server.deliver.
  destruct (verify relay t) as [[]|e]; [|left; now exists e].
  destruct (sendMail relay t m) as [id|e]; right; [right; now exists id | left; now exists e].
Qed.

Lemma sibling_deliver_cases (relay : Relay) (t : Transport) (m : OutboundMessage) :
  (exists e, verify relay t = Throw e
     /\ Part000.deliver relay t m
        = (error_response 503 "Unable to process request, please try again later",
           [CreateTransport t; Verify t]))
  \/ (exists e, verify relay t = Ok tt /\ sendMail relay t m = Throw e
     /\ Part000.deliver relay t m
        = (error_response 503 "Unable to process request, please try again later",
           [CreateTransport t; Verify t; SendMail t m]))
  \/ (exists id, verify relay t = Ok tt /\ sendMail relay t m = Ok id
     /\ Part000.deliver relay t m
        = (json 200 [("success", JBool true);
                     ("message", JStr "Request received successfully")],
           [CreateTransport t; Verify t; SendMail t m])).
Proof.
  unfold Part000.deliver.
  destruct (verify relay t) as [[]|e]; [|left; now exists e].
  destruct (sendMail relay t m) as [id|e]; right; [right; now exists id | left; now exists e].
Qed.

(** What the contact route of [server.js] can do with the mail client, for
    every request, environment and relay: nothing; or create a transport
    and fail to verify it, answering 503; or verify and hand over exactly
    one message, answering 200 when the relay took it and 503 when it did
    not.  So there is at most one send attempt, none without a verified
    connection, the transport is the configured one, and the 503 body is
    the same fixed text whatever the relay's error says. *)
Theorem mail_stage_outcomes (P : Platform) (env : Env) (relay : Relay) (now : Z)
    (req : Request) :
  snd (Server.contactRoute P env relay now req) = []
  \/ (exists e, verify relay (Server.transport env) = Throw e
      /\ Server.contactRoute P env relay now req
         = (error_response 503 "Unable to send message",
            [CreateTransport (Server.transport env); Verify (Server.transport env)]))
  \/ (exists m, verify relay (Server.transport env) = Ok tt
      /\ snd (Server.contactRoute P env relay now req)
         = [CreateTransport (Server.transport env); Verify (Server.transport env);
            SendMail (Server.transport env) m]
      /\ ((exists id, sendMail relay (Server.transport env) m = Ok id
           /\ fst (Server.contactRoute P env relay now req)
              = json 200 [("success", JBool true)])
          \/ (exists e, sendMail relay (Server.transport env) m = Throw e
              /\ fst (Server.contactRoute P env relay now req)
                 = error_response 503 "Unable to send message"))).
Proof.
  unfold Server.contactRoute, Server.contactHandler.
  destruct (Server.validateContactRequest P req); try (left; reflexivity).
  destruct (bind _ _) as [[b s]|]; [|left; reflexivity].
  destruct (Server.config_missing env); [left; reflexivity|].
  destruct (deliver_cases relay (Server.transport env)
              (Server.outbound P env now req (prop "url" b) s))
    as [(e & Hv & ->) | [(e & Hv & Hs & ->) | (id & Hv & Hs & ->)]].
  - right. left. now exists e.
  - right. right. eexists. repeat split; [exact Hv|]. right. now exists e.
  - right. right. eexists. repeat split; [exact Hv|]. left. now exists id.
Qed.

(** The same for the sibling revision. *)
Theorem sibling_mail_stage_outcomes (P : Platform) (env : Env) (relay : Relay)
    (req : Request) :
  snd (Part000.contactRoute P env relay req) = []
  \/ (exists e, verify relay (Part000.transport env) = Throw e
      /\ Part000.contactRoute P env relay req
         = (error_response 503 "Unable to process request, please try again later",
            [CreateTransport (Part000.transport env); Verify (Part000.transport env)]))
  \/ (exists m, verify relay (Part000.transport env) = Ok tt
      /\ snd (Part000.contactRoute P env relay req)
         = [CreateTransport (Part000.transport env); Verify (Part000.transport env);
            SendMail (Part000.transport env) m]
      /\ ((exists id, sendMail relay (Part000.transport env) m = Ok id
           /\ fst (Part000.contactRoute P env relay req)
              = json 200 [("success", JBool true);
                          ("message", JStr "Request received successfully")])
          \/ (exists e, sendMail relay (Part000.transport env) m = Throw e
              /\ fst (Part000.contactRoute P env relay req)
                 = error_response 503
                     "Unable to process request, please try again later"))).
Proof.
  unfold Part000.contactRoute, Part000.contactHandler.
  destruct (Part000.validateContactRequest P req); try (left; reflexivity).
  destruct (bind _ _) as [[b s]|]; [|left; reflexivity].
  destruct (Part000.config_missing env); [left; reflexivity|].
  destruct (sibling_deliver_cases relay (Part000.transport env)
              (Part000.outbound P env (prop "url" b) s))
    as [(e & Hv & ->) | [(e & Hv & Hs & ->) | (id & Hv & Hs & ->)]].
  - right. left. now exists e.
  - right. right. eexists. repeat split; [exact Hv|]. right. now exists e.
  - right. right. eexists. repeat split; [exact Hv|]. left. now exists id.
Qed.

(** ** What has to hold before mail is sent *)

Lemma route_calls_need_acceptance (P : Platform) (env : Env) (relay : Relay)
    (now : Z) (req : Request) :
  snd (Server.contactRoute P env relay now req) <> [] ->
  Server.validateContactRequest P req = Next /\ Server.config_missing env = false.
Proof.
  unfold Server.contactRoute, Server.contactHandler.
  destruct (Server.validateContactRequest P req); try (intros H; now elim H).
  destruct (bind _ _) as [[b s]|]; [|intros H; now elim H].
  destruct (Server.config_missing env); [intros H; now elim H | auto].
Qed.

(** The application of [server.js] calls the mail client only for a request
    that got through every stage before it: the origin guard let it pass,
    it is a POST on the contact route, the global limiter and the contact
    limiter both passed it on, the validator called [next()], and the mail
    configuration is complete. *)
Theorem mail_requires_every_gate (P : Platform) (env : Env) (relay : Relay)
    (now : Z) (st : AppState) (req : Request) :
  snd (Server.app P env relay now st req) <> [] ->
  origin_permitted Server.allowedOrigins (origin req)
  /\ post_route "/contact" req = true
  /\ snd (RateLimit.middleware Server.globalLimiter now req (global_store st)) = Next
  /\ snd (RateLimit.middleware Server.contactLimiter now req (contact_store st)) = Next
  /\ Server.validateContactRequest P req = Next
  /\ Server.config_missing env = false.
Proof.
  unfold Server.app, Cors.middleware.
  destruct (origin_permitted_dec (origin req)) as [Ho | Ho].
  2:{ rewrite (corsOptions_origin_rejected _ Ho). intros H. now elim H. }
  rewrite (corsOptions_origin_permitted _ Ho).
  destruct (String.eqb (method req) "OPTIONS"); [intros H; now elim H|].
  destruct (RateLimit.middleware Server.globalLimiter now req (global_store st))
    as [g out] eqn:Eg.
  destruct out; try (intros H; now elim H).
  destruct (get_route "/health" req); [intros H; now elim H|].
  destruct (post_route "/contact" req); [|intros H; now elim H].
  cbn [contact_store].
  destruct (RateLimit.middleware Server.contactLimiter now req (contact_store st))
    as [c out'] eqn:Ec.
  destruct out'; try (intros H; now elim H).
  destruct (Server.contactRoute P env relay now req) as [o calls] eqn:Er.
  cbn [snd]. intros H.
  assert (Hr : snd (Server.contactRoute P env relay now req) <> []) by now rewrite Er.
  destruct (route_calls_need_acceptance P env relay now req Hr) as [Hv Hc].
  repeat split; trivial.
Qed.

Lemma mail_requires_every_gate_witness :
  origin_permitted Server.allowedOrigins (origin (Reference.post Reference.jo))
  /\ post_route "/contact" (Reference.post Reference.jo) = true
  /\ snd (RateLimit.middleware Server.globalLimiter 0 (Reference.post Reference.jo)
            (global_store Reference.fresh)) = Next
  /\ snd (RateLimit.middleware Server.contactLimiter 0 (Reference.post Reference.jo)
            (contact_store Reference.fresh)) = Next
  /\ Server.validateContactRequest Reference.platform (Reference.post Reference.jo) = Next
  /\ Server.config_missing Reference.env_complete = false.
Proof.
  apply (mail_requires_every_gate Reference.platform Reference.env_complete
           Reference.relay_ok 0 Reference.fresh (Reference.post Reference.jo)).
  vm_compute. discriminate.
Defined.

(** ** What the sanitizer produces *)

Lemma no_space_trimEnd (s : string) : no_space s -> JS.trimEnd s = s.
Proof.
  unfold no_space. induction s as [|c s IH]; simpl; [reflexivity|].
  rewrite andb_true_iff, negb_true_iff. intros [Hc Hs]. rewrite (IH Hs), Hc.
  now destruct s.
Qed.

Lemma no_space_trim (s : string) : no_space s -> JS.trim s = s.
Proof.
  intros H. unfold JS.trim. rewrite JSFacts.trimStart_fixed.
  - now apply no_space_trimEnd.
  - destruct s as [|c s]; [exact I|]. unfold no_space in H. simpl in *.
    apply andb_prop in H as [H _]. now apply negb_true_iff in H.
Qed.

Lemma toLowerCase_app (a b : string) :
  JS.toLowerCase (a ++ b) = (JS.toLowerCase a ++ JS.toLowerCase b)%string.
Proof. induction a as [|c a IH]; simpl; [reflexivity|]. now rewrite IH. Qed.

Lemma plain_lower_char (c : ascii) : plain_char (JS.lower_char c) = plain_char c.
Proof. JSFacts.each_char c. Qed.

Lemma plain_toLowerCase (s : string) : plain s -> plain (JS.toLowerCase s).
Proof.
  unfold plain. intros [Hne H]. split.
  - destruct s; [congruence | discriminate].
  - clear Hne. induction s as [|c s IH]; simpl in *; [reflexivity|].
    apply andb_prop in H as [Hc Hs]. now rewrite plain_lower_char, Hc, IH.
Qed.

Lemma email_shape_toLowerCase (s : string) :
  email_shape s -> email_shape (JS.toLowerCase s).
Proof.
  intros (l & d & t & -> & Hl & Hd & Ht).
  exists (JS.toLowerCase l), (JS.toLowerCase d), (JS.toLowerCase t).
  rewrite !toLowerCase_app. auto using plain_toLowerCase.
Qed.

Lemma length_lower (s : string) : JS.length (JS.toLowerCase s) = JS.length s.
Proof. unfold JS.length. induction s; simpl; lia. Qed.

Lemma isValidEmail_string (e : string) :
  Server.isValidEmail (JStr e) = true <-> email_shape e /\ JS.length e <= 254.
Proof.
  cbn [Server.isValidEmail]. now rewrite andb_true_iff, emailRegex_shape, Z.leb_le.
Qed.

Lemma isValidEmail_is_string (v : JSValue) :
  Server.isValidEmail v = true -> exists e, v = JStr e.
Proof. destruct v; try discriminate. eauto. Qed.

(** The values [server.js] derives from an accepted body. *)
Lemma server_sanitize_after_accept (P : Platform) (req : Request) (s : Sanitized) :
  Server.validateContactRequest P req = Next ->
  Server.sanitize (body req) = Ok s ->
  exists n e,
    prop "name" (body req) = JStr n /\ prop "email" (body req) = JStr e
    /\ 2 <= JS.length (JS.trim n) /\ JS.length n <= 100
    /\ email_shape e /\ JS.length e <= 254
    /\ sanitizedName s = JS.trim n
    /\ sanitizedEmail s = JS.toLowerCase e
    /\ sanitizedMessage s = JS.trim (sanitizedMessage s)
    /\ JS.length (sanitizedMessage s) <= 500
    /\ (forall m, Server.finalMessage (body req) = JStr m ->
                  sanitizedMessage s = JS.trim m).
Proof.
  intros Hv Hs. apply server_next_iff in Hv as ((n & Hn & Hmin & Hmax) & He & _ & Hm).
  destruct (isValidEmail_is_string _ He) as [e Ee]. rewrite Ee in He.
  apply isValidEmail_string in He as [Hshape Hlen].
  unfold Server.sanitize in Hs. rewrite Hn, Ee in Hs.
  cbn [Server.sanitizeName Server.sanitizeEmail call_trim bind] in Hs.
  destruct (Server.sanitizeMessage (Server.finalMessage (body req))) as [r|] eqn:Er;
    [|discriminate Hs].
  cbn [bind] in Hs. injection Hs as <-. cbn [sanitizedName sanitizedEmail sanitizedMessage].
  destruct (sanitizeMessage_accepted P _ r Hm Er) as [Rt Rl].
  pose proof (JSFacts.length_trim n).
  exists n, e. repeat split; trivial.
  - apply JSFacts.substring_short. lia.
  - now rewrite (no_space_trim e (email_shape_no_space e Hshape)).
  - intros m Em. rewrite Em, message_rejected_string in Hm. injection Hm as Hm.
    rewrite Em in Er. unfold Server.sanitizeMessage in Er.
    pose proof (JSFacts.length_trim m).
    destruct (truthy (JStr m)) eqn:T.
    + cbn [call_trim bind] in Er. injection Er as <-.
      apply JSFacts.substring_short. lia.
    + injection Er as <-. simpl in T. destruct m; [reflexivity | discriminate T].
Qed.

(** The same for the sibling revision, which lower-cases before it trims. *)
Lemma sibling_sanitize_after_accept (P : Platform) (req : Request) (s : Sanitized) :
  Part000.validateContactRequest P req = Next ->
  Part000.sanitize (body req) = Ok s ->
  exists n e,
    prop "name" (body req) = JStr n /\ prop "email" (body req) = JStr e
    /\ 2 <= JS.length (JS.trim n) /\ JS.length n <= 100
    /\ email_shape e /\ JS.length e <= 254
    /\ sanitizedName s = JS.trim n
    /\ sanitizedEmail s = JS.toLowerCase e
    /\ sanitizedMessage s = JS.trim (sanitizedMessage s)
    /\ JS.length (sanitizedMessage s) <= 500
    /\ (forall m, Part000.finalMessage (body req) = JStr m ->
                  sanitizedMessage s = JS.trim m).
Proof.
  intros Hv Hs. apply sibling_next_iff in Hv as ((n & Hn & Hmin & Hmax) & He & _ & Hm).
  change (Part000.isValidEmail (prop "email" (body req)) = true)
    with (Server.isValidEmail (prop "email" (body req)) = true) in He.
  destruct (isValidEmail_is_string _ He) as [e Ee]. rewrite Ee in He.
  apply isValidEmail_string in He as [Hshape Hlen].
  unfold Part000.sanitize in Hs. rewrite Hn, Ee in Hs.
  cbn [Part000.sanitizeName Part000.sanitizeEmail call_trim call_toLowerCase bind] in Hs.
  destruct (Part000.sanitizeMessage (Part000.finalMessage (body req))) as [r|] eqn:Er;
    [|discriminate Hs].
  cbn [bind] in Hs. injection Hs as <-. cbn [sanitizedName sanitizedEmail sanitizedMessage].
  pose proof (JSFacts.length_trim n).
  assert (R : forall m, Part000.finalMessage (body req) = JStr m -> r = JS.trim m).
  { intros m Em. specialize (Hm m Em). rewrite Em in Er.
    unfold Part000.sanitizeMessage in Er. pose proof (JSFacts.length_trim m).
    destruct (truthy (JStr m)) eqn:T.
    - cbn [call_trim bind] in Er. injection Er as <-.
      apply JSFacts.substring_short. lia.
    - injection Er as <-. simpl in T. destruct m; [reflexivity | discriminate T]. }
  assert (Rb : r = JS.trim r /\ JS.length r <= 500).
  { unfold Part000.sanitizeMessage in Er.
    destruct (truthy (Part000.finalMessage (body req))) eqn:T.
    - destruct (Part000.finalMessage (body req)) as [| | | |m| |] eqn:Em;
        try discriminate Er.
      rewrite (R m eq_refl). pose proof (Hm m eq_refl). pose proof (JSFacts.length_trim m).
      rewrite JSFacts.trim_idem. split; [reflexivity | lia].
    - injection Er as <-. unfold JS.length. simpl. split; [reflexivity | lia]. }
  destruct Rb as [Rt Rl].
  exists n, e. repeat split; trivial.
  - apply JSFacts.substring_short. lia.
  - rewrite (no_space_trim (JS.toLowerCase e)); [reflexivity|].
    apply email_shape_no_space, email_shape_toLowerCase, Hshape.
Qed.



Lemma finalMessage_sanitized_body (url : JSValue) (s : Sanitized) :
  Server.finalMessage (sanitized_body url s) = JStr (sanitizedMessage s).
Proof.
  unfold Server.finalMessage, sanitized_body, js_or.
  cbn [prop assoc String.eqb Ascii.eqb Bool.eqb].
  destruct (sanitizedMessage s); reflexivity.
Qed.





(** ** Every answer of the application *)

Lemma limiter_verdicts (o : RateLimit.Options) (now : Z) (req : Request)
    (store : gmap string RateLimit.Window) :
  snd (RateLimit.middleware o now req store) = Next
  \/ snd (RateLimit.middleware o now req store)
     = Respond (mkResponse 429 (Text (RateLimit.message o))).
Proof.
  unfold RateLimit.middleware. destruct (RateLimit.skip o req); [now left|].
  destruct (RateLimit.hit o now (RateLimit.keyGenerator o req) store) as [s' []];
    [now left | now right].
Qed.

Lemma server_validator_outcomes (P : Platform) (req : Request) :
  Server.validateContactRequest P req = Next
  \/ (exists e, Server.validateContactRequest P req = Thrown e)
  \/ (exists msg, Server.validateContactRequest P req = error_response 400 msg).
Proof.
  unfold Server.validateContactRequest, Server.validate, error_response.
  destruct (Server.name_rejected P _) as [[]|e]; cbn [bind]; eauto.
  destruct (negb (Server.isValidEmail _)); eauto.
  destruct (negb (Server.isValidUrl P _)); eauto.
  destruct (Server.message_rejected P _) as [[]|e]; cbn [bind]; eauto.
Qed.

(** After acceptance the handler of [server.js] can throw at one place
    only: [finalMessage.trim()], when the message is not a string. *)
Lemma server_sanitize_outcomes (P : Platform) (req : Request) :
  Server.validateContactRequest P req = Next ->
  destructurable (body req) = Ok (body req)
  /\ ((exists s, Server.sanitize (body req) = Ok s)
      \/ (Server.sanitize (body req) = Throw "finalMessage.trim is not a function"
          /\ is_string (Server.finalMessage (body req)) = false)).
Proof.
  intros Hv. destruct (server_accepts P req Hv) as (n & e & [Hn _ _ He _] & _ & _ & Hd).
  split; [exact Hd|]. unfold Server.sanitize. rewrite Hn, He.
  cbn [Server.sanitizeName Server.sanitizeEmail call_trim bind].
  unfold Server.sanitizeMessage.
  destruct (Server.finalMessage (body req)) as [| |[]|k|m|l|fs];
    cbn [truthy call_trim bind]; eauto.
  - destruct (negb (k =? 0)); cbn [bind]; eauto.
  - destruct (negb (String.eqb m EmptyString)); cbn [bind]; eauto.
Qed.

(** Every request to the application of [server.js] is answered with one
    of the statuses 200, 204, 400, 403, 404, 429, 500, 503, with one
    exception: a POST on the contact route that passed validation with a
    message that is not a string, where the handler throws at
    [finalMessage.trim()] and writes no response. *)
Theorem server_answers (P : Platform) (env : Env) (relay : Relay) (now : Z)
    (st : AppState) (req : Request) :
  (exists code payload,
      snd (fst (Server.app P env relay now st req)) = Respond (mkResponse code payload)
      /\ In code [200; 204; 400; 403; 404; 429; 500; 503])
  \/ (snd (fst (Server.app P env relay now st req))
        = Thrown "finalMessage.trim is not a function"
      /\ post_route "/contact" req = true
      /\ Server.validateContactRequest P req = Next
      /\ is_string (Server.finalMessage (body req)) = false).
Proof.
  assert (Err : forall e, exists code payload,
            Server.errorMiddleware e = Respond (mkResponse code payload)
            /\ In code [200; 204; 400; 403; 404; 429; 500; 503]).
  { intros e. unfold Server.errorMiddleware.
    destruct (String.eqb e _); do 2 eexists; (split; [reflexivity | simpl; tauto]). }
  unfold Server.app, Cors.middleware.
  destruct (Server.corsOptions_origin (origin req)) as [ok|e]; [|left; apply Err].
  destruct (String.eqb (method req) "OPTIONS").
  { left. do 2 eexists. split; [reflexivity | simpl; tauto]. }
  destruct (RateLimit.middleware Server.globalLimiter now req (global_store st))
    as [g out] eqn:Eg.
  pose proof (limiter_verdicts Server.globalLimiter now req (global_store st)) as Hg.
  rewrite Eg in Hg. cbn [snd] in Hg. destruct Hg as [-> | ->].
  2:{ left. do 2 eexists. split; [reflexivity | simpl; tauto]. }
  destruct (get_route "/health" req).
  { left. do 2 eexists. split; [reflexivity | simpl; tauto]. }
  destruct (post_route "/contact" req).
  2:{ left. do 2 eexists. split; [reflexivity | simpl; tauto]. }
  cbn [contact_store].
  destruct (RateLimit.middleware Server.contactLimiter now req (contact_store st))
    as [c out'] eqn:Ec.
  pose proof (limiter_verdicts Server.contactLimiter now req (contact_store st)) as Hc.
  rewrite Ec in Hc. cbn [snd] in Hc. destruct Hc as [-> | ->].
  2:{ left. do 2 eexists. split; [reflexivity | simpl; tauto]. }
  unfold Server.contactRoute.
  destruct (server_validator_outcomes P req) as [Hv | [(e & Hv) | (msg & Hv)]];
    rewrite Hv.
  - destruct (server_sanitize_outcomes P req Hv) as [Hd [(s & Hs) | (Hs & Hm)]];
      unfold Server.contactHandler; rewrite Hd; cbn [bind]; rewrite Hs; cbn [bind].
    + destruct (Server.config_missing env).
      { left. do 2 eexists. split; [reflexivity | simpl; tauto]. }
      destruct (deliver_cases relay (Server.transport env)
                  (Server.outbound P env now req (prop "url" (body req)) s))
        as [(e & _ & ->) | [(e & _ & _ & ->) | (id & _ & _ & ->)]];
        left; do 2 eexists; (split; [reflexivity | simpl; tauto]).
    + right. auto.
  - left. apply Err.
  - left. do 2 eexists. split; [reflexivity | simpl; tauto].
Qed.

(** ** The limiters and the body *)

(** The limiters never look at the body: whatever a request carries, valid
    or not, both stores end up the same.  A submission that the validator
    refuses therefore takes one of the client's three places in the
    contact window, and one of its five in the global window, like an
    accepted one. *)
Theorem limiter_state_ignores_body (P : Platform) (env : Env) (relay : Relay)
    (now : Z) (st : AppState) (req : Request) (b : JSValue) :
  fst (fst (Server.app P env relay now st (with_body req b)))
  = fst (fst (Server.app P env relay now st req))
  /\ fst (fst (Part000.app P env relay now st (with_body req b)))
     = fst (fst (Part000.app P env relay now st req)).
Proof.
  assert (G : forall o, RateLimit.keyGenerator o = RateLimit.default_keyGenerator ->
            RateLimit.skip o = (fun r => String.eqb (path r) "/health") ->
            forall store, RateLimit.middleware o now (with_body req b) store
                          = RateLimit.middleware o now req store).
  { intros o Hk Hs store. unfold RateLimit.middleware. now rewrite Hk, Hs. }
  split.
  - unfold Server.app, Cors.middleware, get_route, post_route, path_matches.
    cbn [origin method path with_body].
    destruct (Server.corsOptions_origin (origin req)); [|reflexivity].
    destruct (String.eqb (method req) "OPTIONS"); [reflexivity|].
    rewrite (G Server.globalLimiter eq_refl eq_refl).
    destruct (RateLimit.middleware Server.globalLimiter now req (global_store st))
      as [g []]; try reflexivity.
    destruct (_ && _); [reflexivity|]. destruct (_ && _); [|reflexivity].
    change (RateLimit.middleware Server.contactLimiter now (with_body req b))
      with (RateLimit.middleware Server.contactLimiter now req).
    destruct (RateLimit.middleware Server.contactLimiter now req _) as [c []];
      try reflexivity.
    destruct (Server.contactRoute P env relay now (with_body req b)).
    destruct (Server.contactRoute P env relay now req). reflexivity.
  - unfold Part000.app, Cors.middleware, get_route, post_route, path_matches.
    cbn [origin method path with_body].
    destruct (Part000.corsOptions_origin (origin req)); [|reflexivity].
    destruct (String.eqb (method req) "OPTIONS"); [reflexivity|].
    rewrite (G Part000.limiter eq_refl eq_refl).
    destruct (RateLimit.middleware Part000.limiter now req (global_store st))
      as [g []]; try reflexivity.
    destruct (_ && _); [reflexivity|]. destruct (_ && _); [|reflexivity].
    change (RateLimit.middleware Part000.contactLimiter now (with_body req b))
      with (RateLimit.middleware Part000.contactLimiter now req).
    destruct (RateLimit.middleware Part000.contactLimiter now req _) as [c []];
      try reflexivity.
    destruct (Part000.contactRoute P env relay (with_body req b)).
    destruct (Part000.contactRoute P env relay req). reflexivity.
Qed.

(** ** The order of the checks *)

(** The validator of [server.js] reports the first check that fails, in the
    order name, email, URL, message: with a name in bounds, a refused
    email is answered [Invalid email] whatever the URL and the message
    are; with an accepted email, a refused URL is answered [Invalid URL]
    whatever the message is; and with all three accepted, a string
    message of more than 500 units is answered [Message too long]. *)
Theorem validation_order (P : Platform) (req : Request) :
  name_in_bounds (prop "name" (body req)) ->
  (Server.isValidEmail (prop "email" (body req)) = false ->
   Server.validateContactRequest P req = error_response 400 "Invalid email")
  /\ (Server.isValidEmail (prop "email" (body req)) = true ->
      Server.isValidUrl P (prop "url" (body req)) = false ->
      Server.validateContactRequest P req = error_response 400 "Invalid URL")
  /\ (forall m,
        Server.isValidEmail (prop "email" (body req)) = true ->
        Server.isValidUrl P (prop "url" (body req)) = true ->
        Server.finalMessage (body req) = JStr m ->
        500 < JS.length m ->
        Server.validateContactRequest P req = error_response 400 "Message too long").
Proof.
  intros (n & Hn & Hmin & Hmax).
  unfold Server.validateContactRequest, Server.validate, Server.name_rejected.
  rewrite !prop_or_empty, finalMessage_or_empty, Hn.
  rewrite (name_in_bounds_truthy n Hmin).
  cbn [negb call_trim get_length js_gt bind].
  replace (JS.length (JS.trim n) <? 2) with false by lia.
  replace (JS.length n >? 100) with false by lia. cbn [bind].
  split; [|split].
  - intros ->. reflexivity.
  - intros -> ->. reflexivity.
  - intros m -> -> -> Hm. rewrite message_rejected_string.
    replace (JS.length m >? 500) with true by lia. reflexivity.
Qed.

Lemma validation_order_witness :
  Server.validateContactRequest Reference.platform
    (Reference.post (Reference.submission (JStr "Jo Smith") (JStr "not-an-email")
                       (JStr "ftp://example.com") (JStr "Please review")))
  = error_response 400 "Invalid email".
Proof.
  apply (validation_order Reference.platform
           (Reference.post (Reference.submission (JStr "Jo Smith") (JStr "not-an-email")
                              (JStr "ftp://example.com") (JStr "Please review")))).
  - exists "Jo Smith". repeat split; unfold JS.length; simpl; lia.
  - reflexivity.
Defined.

(** ** Where the mail goes *)

Lemma env_set_value (env : Env) (k : string) :
  env_set env k = true -> env k = Some (opt_or (env k) EmptyString)
                          /\ opt_or (env k) EmptyString <> EmptyString.
Proof.
  unfold env_set, opt_or. destruct (env k) as [v|]; [|discriminate].
  destruct (String.eqb_spec v EmptyString); [discriminate|]. auto.
Qed.

(** Every message the contact route hands to the relay is addressed to the
    configured destination [TO_EMAIL], which is set and not empty, and is
    sent through the transport of the configured host with the configured
    credentials; nothing in the request can change the recipient.  Both
    revisions. *)
Theorem recipient_is_configured (P : Platform) (env : Env) (relay : Relay)
    (now : Z) (req : Request) (t : Transport) (m : OutboundMessage) :
  In (SendMail t m) (snd (Server.contactRoute P env relay now req))
  \/ In (SendMail t m) (snd (Part000.contactRoute P env relay req)) ->
  env "TO_EMAIL" = Some (to m) /\ to m <> EmptyString
  /\ env "SMTP_HOST" = Some (host t) /\ host t <> EmptyString
  /\ env "SMTP_USER" = Some (auth_user t)
  /\ env "SMTP_PASS" = Some (auth_pass t).
Proof.
  assert (Cfg : Server.config_missing env = false ->
            env "TO_EMAIL" = Some (opt_or (env "TO_EMAIL") EmptyString)
            /\ opt_or (env "TO_EMAIL") EmptyString <> EmptyString
            /\ env "SMTP_HOST" = Some (opt_or (env "SMTP_HOST") EmptyString)
            /\ opt_or (env "SMTP_HOST") EmptyString <> EmptyString
            /\ env "SMTP_USER" = Some (opt_or (env "SMTP_USER") EmptyString)
            /\ env "SMTP_PASS" = Some (opt_or (env "SMTP_PASS") EmptyString)).
  { unfold Server.config_missing. rewrite !orb_false_iff, !negb_false_iff.
    intros [[[Hh Hu] Hp] Ht].
    apply env_set_value in Hh as [Hh Hh'], Hu as [Hu _], Hp as [Hp _], Ht as [Ht Ht'].
    auto 10. }
  intros [H | H].
  - unfold Server.contactRoute, Server.contactHandler in H.
    destruct (Server.validateContactRequest P req); try contradiction.
    destruct (bind _ _) as [[b s]|]; [|contradiction].
    destruct (Server.config_missing env) eqn:Hc; [contradiction|].
    unfold Server.deliver in H.
    assert (E : t = Server.transport env
                /\ m = Server.outbound P env now req (prop "url" b) s).
    { destruct (verify relay _).
      - destruct (sendMail relay _ _); simpl in H;
          destruct H as [H | [H | [H | []]]]; try discriminate H;
          injection H as <- <-; auto.
      - simpl in H. destruct H as [H | [H | []]]; discriminate H. }
    destruct E as [-> ->]. now apply Cfg.
  - unfold Part000.contactRoute, Part000.contactHandler in H.
    destruct (Part000.validateContactRequest P req); try contradiction.
    destruct (bind _ _) as [[b s]|]; [|contradiction].
    destruct (Part000.config_missing env) eqn:Hc; [contradiction|].
    unfold Part000.deliver in H.
    assert (E : t = Part000.transport env
                /\ m = Part000.outbound P env (prop "url" b) s).
    { destruct (verify relay _).
      - destruct (sendMail relay _ _); simpl in H;
          destruct H as [H | [H | [H | []]]]; try discriminate H;
          injection H as <- <-; auto.
      - simpl in H. destruct H as [H | [H | []]]; discriminate H. }
    destruct E as [-> ->]. now apply Cfg.
Qed.

Lemma recipient_is_configured_witness :
  Reference.env_complete "TO_EMAIL" = Some "owner@example.net"
  /\ "owner@example.net" <> EmptyString
  /\ Reference.env_complete "SMTP_HOST" = Some "smtp.example.net"
  /\ "smtp.example.net" <> EmptyString
  /\ Reference.env_complete "SMTP_USER" = Some "mailer@example.net"
  /\ Reference.env_complete "SMTP_PASS" = Some "secret".
Proof.
  apply (recipient_is_configured Reference.platform Reference.env_complete
           Reference.relay_ok 0 (Reference.post Reference.jo)
           (Server.transport Reference.env_complete)
           (Server.outbound Reference.platform Reference.env_complete 0
              (Reference.post Reference.jo) (JStr "https://app.example.com")
              (mkSanitized "Jo Smith" "jo@example.com" "Please review"))).
  left. vm_compute. right. right. left. reflexivity.
Defined.
